(** * A shallow embedding of the two-pass assembler of [src/assembler.py]

    The Python class [Assembler] keeps its state in instance attributes
    ([__asm], [__address_symbol_table], [__bin]); the embedding threads
    that state explicitly.  Python exceptions are the [py_error]
    constructors of an error monad.  Token lines are lists of strings as
    produced by [s.rstrip().lower().split()]; they contain no whitespace,
    and the model works on their ASCII characters. *)

From Stdlib Require Import ZArith Lia Ascii String.
From stdpp Require Import base gmap strings list pretty.

Open Scope string_scope.
Open Scope list_scope.
Open Scope Z_scope.

(** ** Python exceptions and the error monad *)

Inductive py_error :=
  | IndexError                 (* list index out of range *)
  | KeyError (k : string)      (* dict lookup of a missing key *)
  | ValueError                 (* int() of a malformed literal *)
  | AssertionError (msg : string)
  | FormatError.               (* Exception('format2bin: not supported ...') *)

Inductive result (A : Type) :=
  | Ok (a : A)
  | Err (e : py_error).
Arguments Ok {A} a.
Arguments Err {A} e.

Definition rbind {A B} (m : result A) (k : A -> result B) : result B :=
  match m with Ok a => k a | Err e => Err e end.

Notation "'let*' x ':=' m 'in' k" := (rbind m (fun x => k))
  (at level 200, x name, m at level 100, k at level 200).

(** [xs[i]] on a Python list. *)
Definition py_index {A} (xs : list A) (i : nat) : result A :=
  match xs !! i with Some x => Ok x | None => Err IndexError end.

(** [t[k]] on a Python dict modelled as a [gmap]. *)
Definition py_lookup (t : gmap string string) (k : string) : result string :=
  match t !! k with Some v => Ok v | None => Err (KeyError k) end.

(** [k in t.keys()] *)
Definition py_in_keys (t : gmap string string) (k : string) : bool :=
  match t !! k with Some _ => true | None => false end.

(** [x in xs] on a list of strings. *)
Definition py_in_list (x : string) (xs : list string) : bool :=
  existsb (fun y => bool_decide (y = x)) xs.

(** ** Strings *)

Fixpoint str_ends_with_comma (s : string) : bool :=
  match s with
  | EmptyString => false
  | String c EmptyString => bool_decide (c = ","%char)
  | String _ r => str_ends_with_comma r
  end.

Definition str_starts_with_slash (s : string) : bool :=
  match s with
  | String c _ => bool_decide (c = "/"%char)
  | EmptyString => false
  end.

(** [s[n:]] *)
Fixpoint str_drop (n : nat) (s : string) : string :=
  match n, s with
  | O, _ => s
  | S n', String _ r => str_drop n' r
  | S _, EmptyString => EmptyString
  end.

Fixpoint str_repeat (n : nat) (c : ascii) : string :=
  match n with O => EmptyString | S n' => String c (str_repeat n' c) end.

(** [s.zfill(w)]: left-pad with zeros up to width [w], after a sign. *)
Definition py_zfill (w : nat) (s : string) : string :=
  let n := String.length s in
  if (w <=? n)%nat then s
  else
    let pad := str_repeat (w - n) "0"%char in
    match s with
    | String c r =>
        if bool_decide (c = "-"%char) || bool_decide (c = "+"%char)
        then String c (pad +:+ r)
        else pad +:+ s
    | EmptyString => pad
    end.

(** ** Integer formatting: ['{:b}'.format(v)] and [hex(v)] *)

Fixpoint pos_bin (p : positive) : string :=
  match p with
  | xH => "1"
  | xO p' => pos_bin p' +:+ "0"
  | xI p' => pos_bin p' +:+ "1"
  end.

Definition py_format_b (v : Z) : string :=
  match v with
  | Z0 => "0"
  | Zpos p => pos_bin p
  | Zneg p => String "-" (pos_bin p)
  end.

Definition hex_char (d : Z) : ascii :=
  if d <? 10 then ascii_of_nat (Z.to_nat d + 48)
  else ascii_of_nat (Z.to_nat d + 87).

Fixpoint hex_aux (fuel : nat) (n : Z) (acc : string) : string :=
  match fuel with
  | O => acc
  | S f =>
      let acc' := String (hex_char (n mod 16)) acc in
      if n <? 16 then acc' else hex_aux f (n / 16) acc'
  end.

Definition hex_digits (n : Z) : string := hex_aux (S (Z.to_nat n)) n EmptyString.

Definition py_hex (v : Z) : string :=
  if v <? 0 then "-0x" +:+ hex_digits (- v) else "0x" +:+ hex_digits v.

(** ** [int(s, base)] *)

Definition digit_value (c : ascii) : Z :=
  let n := Z.of_nat (nat_of_ascii c) in
  if (48 <=? n) && (n <=? 57) then n - 48
  else if (97 <=? n) && (n <=? 122) then n - 87
  else if (65 <=? n) && (n <=? 90) then n - 55
  else 99.

(** Digits with single underscores between them; [us_ok] says whether an
    underscore may come next, [need] whether a digit must still come. *)
Fixpoint parse_body (base : Z) (s : string) (acc : Z) (us_ok need : bool)
    : option Z :=
  match s with
  | EmptyString => if need then None else Some acc
  | String c r =>
      if bool_decide (c = "_"%char) then
        if us_ok then parse_body base r acc false true else None
      else
        let d := digit_value c in
        if d <? base then parse_body base r (acc * base + d) true false
        else None
  end.

Definition py_int_opt (s : string) (base : Z) : option Z :=
  let '(sign, body) :=
    match s with
    | String c r =>
        if bool_decide (c = "-"%char) then (-1, r)
        else if bool_decide (c = "+"%char) then (1, r) else (1, s)
    | EmptyString => (1, s)
    end in
  let '(us_ok, body) :=
    if base =? 16 then
      match body with
      | String z (String x r) =>
          if bool_decide (z = "0"%char)
             && (bool_decide (x = "x"%char) || bool_decide (x = "X"%char))
          then (true, r) else (false, body)
      | _ => (false, body)
      end
    else (false, body) in
  option_map (Z.mul sign) (parse_body base body 0 us_ok true).

Definition py_int (s : string) (base : Z) : result Z :=
  match py_int_opt s base with Some v => Ok v | None => Err ValueError end.

(** ** [Assembler.__format2bin] *)

Definition format2bin (num numformat : string) (format_bits : nat) : result string :=
  if bool_decide (numformat = "dec") then
    let* v := py_int num 10 in Ok (py_zfill format_bits (py_format_b v))
  else if bool_decide (numformat = "hex") then
    let* v := py_int num 16 in Ok (py_zfill format_bits (py_format_b v))
  else Err FormatError.

(** ** The memory image [self.__bin]: an insertion-ordered Python dict *)

Abbreviation pydict := (list (string * option string)).

(** [d[k] = v]: an existing key keeps its position, a new key goes last. *)
Fixpoint dict_set (d : pydict) (k : string) (v : option string) : pydict :=
  match d with
  | [] => [(k, v)]
  | (k', v') :: d' =>
      if bool_decide (k' = k) then (k, v) :: d' else (k', v') :: dict_set d' k v
  end.

(** [d.pop(k)] *)
Fixpoint dict_pop (d : pydict) (k : string) : result pydict :=
  match d with
  | [] => Err (KeyError k)
  | (k', v') :: d' =>
      if bool_decide (k' = k) then Ok d'
      else let* r := dict_pop d' k in Ok ((k', v') :: r)
  end.

(** ** [__islabel] and [__rm_comments] *)

Definition islabel (s : string) : bool := str_ends_with_comma s.

Fixpoint cut_comment (l : list string) : list string :=
  match l with
  | [] => []
  | t :: l' => if str_starts_with_slash t then [] else t :: cut_comment l'
  end.

Definition rm_comments (asm : list (list string)) : list (list string) :=
  map cut_comment asm.

(** The lines [asm[1] .. asm[len(asm)-2]] of [range(1, len(asm) - 1)]. *)
Definition body_lines (asm : list (list string)) : list (list string) :=
  take (length asm - 2) (drop 1 asm).

(** ** [__first_pass] *)

Record fp_state := {
  fp_org : string;          (* org *)
  fp_inc : Z;               (* inc *)
  fp_linecounter : nat;     (* linecounter *)
  fp_symtab : gmap string string;
  fp_bin : pydict
}.

Definition label_msg (n : nat) : string :=
  "Invalid Assembly Code, in line " +:+ pretty n.

(** [self.__format2bin(hex(int(org, 16) + inc)[2::], 'hex', 12)] *)
Definition fp_ctr (org : string) (inc : Z) : result string :=
  let* v := py_int org 16 in
  format2bin (str_drop 2 (py_hex (v + inc))) "hex" 12.

Inductive fp_out := FBreak | FNext (st : fp_state).

(** One iteration of the [for i in range(1, len(self.__asm) - 1)] loop. *)
Definition fp_step (st : fp_state) (line : list string) : result fp_out :=
  let* t0 := py_index line 0 in
  if bool_decide (t0 = "end") then Ok FBreak else
  let* oi := (if bool_decide (t0 = "org")
              then let* o := py_index line 1 in Ok (o, -1)
              else Ok (fp_org st, fp_inc st)) in
  let lc := S (fp_linecounter st) in
  let* ctr := fp_ctr oi.1 oi.2 in
  let* sym := (if islabel t0 then
                 if (2 <=? length line)%nat then Ok (<[t0 := ctr]> (fp_symtab st))
                 else Err (AssertionError (label_msg (S lc)))
               else Ok (fp_symtab st)) in
  Ok (FNext {| fp_org := oi.1; fp_inc := oi.2 + 1; fp_linecounter := lc;
               fp_symtab := sym; fp_bin := dict_set (fp_bin st) ctr None |}).

Fixpoint fp_loop (st : fp_state) (ls : list (list string)) : result fp_state :=
  match ls with
  | [] => Ok st
  | l :: ls' =>
      let* o := fp_step st l in
      match o with FBreak => Ok st | FNext st' => fp_loop st' ls' end
  end.

Definition fp_init (org : string) (sym : gmap string string) (bin : pydict) : fp_state :=
  {| fp_org := org; fp_inc := 0; fp_linecounter := 0; fp_symtab := sym; fp_bin := bin |}.

Definition first_pass (asm : list (list string)) (sym : gmap string string) (bin : pydict)
    : result fp_state :=
  let* l0 := py_index asm 0 in
  let* org := py_index l0 1 in
  fp_loop (fp_init org sym bin) (body_lines asm).

(** ** [__second_pass] *)

Record tables := { rri_table : gmap string string;
                   mri_table : gmap string string;
                   ioi_table : gmap string string }.

(** [self.__bin[list(self.__bin.keys())[i - 1]] = v] (the value [v] is
    evaluated first, as Python does for an assignment). *)
Definition store (bin : pydict) (i : nat) (v : string) : result pydict :=
  let* k := py_index (map fst bin) (i - 1) in Ok (dict_set bin k (Some v)).

Definition indirect_bit (rest : list string) : string :=
  if py_in_list "i" rest then "1" else "0".

(** One iteration of the loop of [__second_pass] on line [i]; [None] is the
    [break], otherwise the new [flag] and [self.__bin]. *)
Definition sp_step (tb : tables) (sym : gmap string string) (flag : bool)
    (bin : pydict) (i : nat) (line : list string) : result (option (bool * pydict)) :=
  let* t0 := py_index line 0 in
  if bool_decide (t0 = "end") then Ok None
  else if py_in_list "hlt" line then
    let* v := py_lookup (rri_table tb) "hlt" in
    let* b := store bin i v in Ok (Some (true, b))
  else if py_in_keys (rri_table tb) t0 then
    let* v := py_lookup (rri_table tb) t0 in
    let* b := store bin i v in Ok (Some (flag, b))
  else
  let* t1 := py_index line 1 in
  if py_in_keys (rri_table tb) t1 then
    let* v := py_lookup (rri_table tb) t1 in
    let* b := store bin i v in Ok (Some (flag, b))
  else if py_in_keys (mri_table tb) t0 then
    let I := indirect_bit (drop 1 line) in
    let* op := py_lookup (mri_table tb) t0 in
    let* a := py_lookup sym (t1 +:+ ",") in
    let* b := store bin i (I +:+ op +:+ a) in Ok (Some (flag, b))
  else if py_in_keys (mri_table tb) t1 then
    let I := indirect_bit (drop 1 line) in
    let* op := py_lookup (mri_table tb) t1 in
    let* t2 := py_index line 2 in
    let* a := py_lookup sym (t2 +:+ ",") in
    let* b := store bin i (I +:+ op +:+ a) in Ok (Some (flag, b))
  else if py_in_keys (ioi_table tb) t0 then
    let* v := py_lookup (ioi_table tb) t0 in
    let* b := store bin i v in Ok (Some (flag, b))
  else if py_in_keys (ioi_table tb) t1 then
    let* v := py_lookup (ioi_table tb) t1 in
    let* b := store bin i v in Ok (Some (flag, b))
  else if islabel t0 && flag then
    if bool_decide (t1 = "hex") then
      let* t2 := py_index line 2 in
      let* v := format2bin t2 "hex" 16 in
      let* b := store bin i v in Ok (Some (flag, b))
    else if bool_decide (t1 = "dec") then
      let* t2 := py_index line 2 in
      let* v := format2bin t2 "dec" 16 in
      let* b := store bin i v in Ok (Some (flag, b))
    else Ok (Some (flag, bin))           (* print('error') *)
  else Ok (Some (flag, bin)).

Fixpoint sp_loop (tb : tables) (sym : gmap string string) (flag : bool)
    (bin : pydict) (i : nat) (ls : list (list string)) : result pydict :=
  match ls with
  | [] => Ok bin
  | l :: ls' =>
      let* o := sp_step tb sym flag bin i l in
      match o with
      | None => Ok bin
      | Some fb => sp_loop tb sym fb.1 fb.2 (S i) ls'
      end
  end.

(** The final loop: [dv], [dk] are snapshots; every key whose value was
    [None] is popped. *)
Definition prune (bin : pydict) : result pydict :=
  fold_left (fun acc kv =>
               let* b := acc in
               match kv.2 with None => dict_pop b kv.1 | Some _ => Ok b end)
            bin (Ok bin).

Definition second_pass (asm : list (list string)) (tb : tables)
    (sym : gmap string string) (bin : pydict) : result pydict :=
  let* b := sp_loop tb sym false bin 1 (body_lines asm) in prune b.

(** ** [Assembler.assemble] on a fresh instance whose [__asm] is loaded *)

Definition assemble (asm : list (list string)) (tb : tables) : result pydict :=
  match asm with
  | [] => Err (AssertionError "no assembly file provided")
  | _ =>
      let asm := rm_comments asm in
      let* st := first_pass asm ∅ [] in
      second_pass asm tb (fp_symtab st) (fp_bin st)
  end.

(** ** Sample tables and programs *)

Definition spec_tables : tables :=
  {| rri_table := {[ "hlt" := "1111111111111111" ]};
     mri_table := {[ "lda" := "000" ]};
     ioi_table := ∅ |}.

Definition spec_program : list (list string) :=
  [["org"; "100"]; ["lda"; "x,"]; ["hlt"]; ["x,"; "hex"; "1"]; ["end"]].

Definition spec_program_plain : list (list string) :=
  [["org"; "100"]; ["lda"; "x"]; ["hlt"]; ["x,"; "hex"; "1"]; ["end"]].

(** The 12-bit address string Pass 1 renders for the value [v]. *)
Definition addr_str (v : Z) : string := py_zfill 12 (py_format_b v).

(** ** More sample programs *)

(** A post-halt data literal that needs 17 bits. *)
Definition overflow_program : list (list string) :=
  [["org"; "100"]; ["hlt"]; ["x,"; "dec"; "65536"]; ["end"]].

(** A second segment that starts right after the first one. *)
Definition contiguous_program : list (list string) :=
  [["org"; "100"]; ["x,"; "hlt"]; ["org"; "101"]; ["lda"; "x"]; ["org"; "200"]; ["end"]].

Definition label_program : list (list string) :=
  [["org"; "100"]; ["x,"; "hlt"]; ["end"]].

Definition reloc_program : list (list string) :=
  [["org"; "100"]; ["hlt"]; ["org"; "200"]; ["hlt"]; ["end"]].

Definition two_lone_labels : list (list string) :=
  [["org"; "100"]; ["a,"]; ["b,"]; ["end"]].

Definition forward_program : list (list string) :=
  [["org"; "100"]; ["lda"; "x"]; ["x,"; "hlt"]; ["end"]].

Definition backward_program : list (list string) :=
  [["org"; "100"]; ["x,"; "hlt"]; ["lda"; "x"]; ["end"]].

Definition single_token_program : list (list string) :=
  [["org"; "100"]; ["foo"]; ["end"]].

Definition dup_label_program : list (list string) :=
  [["org"; "100"]; ["x,"; "hlt"]; ["x,"; "dec"; "7"]; ["end"]].

(** A blank line (an empty token list) before a lone label. *)
Definition blank_then_label : list (list string) :=
  [["org"; "100"]; []; ["a,"]; ["end"]].

(** ** Auxiliary notions of the proofs *)

Definition assigned (kv : string * option string) : bool :=
  match kv.2 with Some _ => true | None => false end.

(** Taking apart a successful run: every [let*], [if] and [match] in the
    hypothesis [H] is split on. *)
Ltac crush_hyp H :=
  repeat (cbn [rbind] in H;
          match type of H with
          | rbind ?m _ = _ => let E := fresh "E" in destruct m eqn:E
          | (if ?b then _ else _) = _ => let E := fresh "E" in destruct b eqn:E
          | (match ?m with FBreak => _ | FNext _ => _ end) = _ =>
              let E := fresh "E" in destruct m eqn:E
          end; try discriminate H);
  try (cbn [rbind] in H).

(** The lines Pass 1 processes before it reaches a terminal directive. *)
Fixpoint upto_end (ls : list (list string)) : list (list string) :=
  match ls with
  | [] => []
  | l :: ls' => if bool_decide (hd_error l = Some "end") then [] else l :: upto_end ls'
  end.

Definition with_symtab (st : fp_state) (s : gmap string string) : fp_state :=
  {| fp_org := fp_org st; fp_inc := fp_inc st; fp_linecounter := fp_linecounter st;
     fp_symtab := s; fp_bin := fp_bin st |}.

Definition same_but_symtab (s1 s2 : fp_state) : Prop :=
  fp_org s1 = fp_org s2 /\ fp_inc s1 = fp_inc s2 /\
  fp_linecounter s1 = fp_linecounter s2 /\ fp_bin s1 = fp_bin s2.

(** Two outcomes agree: the same exception, or related results. *)
Definition res_rel {A} (R : A -> A -> Prop) (r1 r2 : result A) : Prop :=
  match r1, r2 with
  | Ok a, Ok b => R a b
  | Err e1, Err e2 => e1 = e2
  | _, _ => False
  end.

Definition out_rel (o1 o2 : fp_out) : Prop :=
  match o1, o2 with
  | FBreak, FBreak => True
  | FNext a, FNext b => same_but_symtab a b
  | _, _ => False
  end.

(** A line Pass 1 allocates one address to, without relocating and
    without failing on a bare label. *)
Definition plain_line (l : list string) : Prop :=
  exists t0 r, l = t0 :: r /\ t0 <> "end" /\ t0 <> "org" /\
               (islabel t0 = true -> r <> []).

(** The addresses [start], [start + 1], ..., [n] of them. *)
Fixpoint pending_addrs (start : Z) (n : nat) : list string :=
  match n with O => [] | S n' => addr_str start :: pending_addrs (start + 1) n' end.

Definition set_pending (bin : pydict) (addrs : list string) : pydict :=
  fold_left (fun b a => dict_set b a None) addrs bin.

(** A line the elif chain of [__second_pass] sends to one of its two
    memory-reference branches, with its opcode field and operand label. *)
Inductive mri_line (tb : tables) : list string -> string -> string -> Prop :=
  | MriPlain t0 t1 rest op :
      t0 <> "end" -> py_in_list "hlt" (t0 :: t1 :: rest) = false ->
      rri_table tb !! t0 = None -> rri_table tb !! t1 = None ->
      mri_table tb !! t0 = Some op -> mri_line tb (t0 :: t1 :: rest) op t1
  | MriLabelled t0 t1 t2 rest op :
      t0 <> "end" -> py_in_list "hlt" (t0 :: t1 :: t2 :: rest) = false ->
      rri_table tb !! t0 = None -> rri_table tb !! t1 = None ->
      mri_table tb !! t0 = None -> mri_table tb !! t1 = Some op ->
      mri_line tb (t0 :: t1 :: t2 :: rest) op t2.

(** ** Reading source and table files: [s.rstrip().lower().split()]

    Characters are bytes; [str.isspace], [str.lower] are those of Python
    on ASCII text. *)

(** [c.isspace()] for an ASCII character: \t \n \v \f \r, the separators
    \x1c .. \x1f, and the space. *)
Definition py_isspace (c : ascii) : bool :=
  let n := nat_of_ascii c in (((9 <=? n) && (n <=? 13)) || ((28 <=? n) && (n <=? 32)))%nat.

Definition py_isupper (c : ascii) : bool :=
  let n := nat_of_ascii c in ((65 <=? n) && (n <=? 90))%nat.

Definition py_lower_char (c : ascii) : ascii :=
  if py_isupper c then ascii_of_nat (nat_of_ascii c + 32)%nat else c.

(** [s.lower()] *)
Fixpoint py_lower (s : string) : string :=
  match s with
  | EmptyString => EmptyString
  | String c r => String (py_lower_char c) (py_lower r)
  end.

(** [s.rstrip()] *)
Fixpoint py_rstrip (s : string) : string :=
  match s with
  | EmptyString => EmptyString
  | String c r =>
      let r' := py_rstrip r in
      match r' with
      | EmptyString => if py_isspace c then EmptyString else String c EmptyString
      | _ => String c r'
      end
  end.

(** [s.split()]: maximal runs of non-space characters; [cur] is the run
    being read. *)
Fixpoint py_split_go (s cur : string) : list string :=
  match s with
  | EmptyString => match cur with EmptyString => [] | _ => [cur] end
  | String c r =>
      if py_isspace c then
        match cur with
        | EmptyString => py_split_go r EmptyString
        | _ => cur :: py_split_go r EmptyString
        end
      else py_split_go r (cur +:+ String c EmptyString)
  end.

Definition py_split (s : string) : list string := py_split_go s EmptyString.

(** One line of [f.readlines()] as [read_code] and [__load_table] see it. *)
Definition read_line (s : string) : list string := py_split (py_lower (py_rstrip s)).

Definition tokenize (lines : list string) : list (list string) := map read_line lines.

(** [s.endswith(suf)] *)
Definition py_endswith (s suf : string) : bool :=
  (String.length suf <=? String.length s)%nat &&
  bool_decide (str_drop (String.length s - String.length suf) s = suf).

Definition has_asm_suffix (path : string) : bool :=
  py_endswith path ".asm" || py_endswith path ".S".

(** [path.split('/')[-1]] *)
Fixpoint basename_go (s cur : string) : string :=
  match s with
  | EmptyString => cur
  | String c r =>
      if bool_decide (c = "/"%char) then basename_go r EmptyString
      else basename_go r (cur +:+ String c EmptyString)
  end.

Definition basename (path : string) : string := basename_go path EmptyString.

(** [{opcode: binary for opcode, binary in t}]: a line that does not have
    exactly two tokens cannot be unpacked ([ValueError]); a later line
    overwrites an earlier one with the same opcode. *)
Fixpoint build_table (t : list (list string)) (acc : gmap string string)
    : result (gmap string string) :=
  match t with
  | [] => Ok acc
  | [op; b] :: t' => build_table t' (<[op := b]> acc)
  | _ :: _ => Err ValueError
  end.

(** ** The [Assembler] object

    The file system maps a path to the result of [f.readlines()], or to
    [None] when the file cannot be opened.  Exceptions other than those of
    the two passes are [obj_error]s; an instance that raised is not
    modelled further. *)

Abbreviation filesystem := (string -> option (list string)).

Inductive obj_error :=
  | OPy (e : py_error)
  | OAttributeError (name : string)
  | OFileNotFound (path : string).

Inductive ores (A : Type) :=
  | OOk (a : A)
  | OErr (e : obj_error).
Arguments OOk {A} a.
Arguments OErr {A} e.

Definition obind {A B} (m : ores A) (k : A -> ores B) : ores B :=
  match m with OOk a => k a | OErr e => OErr e end.

Notation "'let+' x ':=' m 'in' k" := (obind m (fun x => k))
  (at level 200, x name, m at level 100, k at level 200).

Definition lift_res {A} (r : result A) : ores A :=
  match r with Ok a => OOk a | Err e => OErr (OPy e) end.

Definition ores_map {A B} (f : A -> B) (m : ores A) : ores B :=
  match m with OOk a => OOk (f a) | OErr e => OErr e end.

(** The instance attributes; [asm_attr] is [None] while [self.__asm] has
    not been assigned (only [read_code] assigns it). *)
Record assembler := {
  asm_attr : option (list (list string));    (* self.__asm *)
  asmfile_attr : option string;              (* self.__asmfile *)
  symtab_attr : gmap string string;          (* self.__address_symbol_table *)
  bin_attr : pydict;                         (* self.__bin *)
  mri_attr : gmap string string;
  rri_attr : gmap string string;
  ioi_attr : gmap string string
}.

Definition tables_of (a : assembler) : tables :=
  {| rri_table := rri_attr a; mri_table := mri_attr a; ioi_table := ioi_attr a |}.

Definition suffix_msg : string := "file provided does not end with .asm or .S".

Definition read_code (fs : filesystem) (self : assembler) (path : string)
    : ores assembler :=
  if has_asm_suffix path then
    match fs path with
    | None => OErr (OFileNotFound path)
    | Some lines =>
        OOk {| asm_attr := Some (tokenize lines); asmfile_attr := Some (basename path);
               symtab_attr := symtab_attr self; bin_attr := bin_attr self;
               mri_attr := mri_attr self; rri_attr := rri_attr self;
               ioi_attr := ioi_attr self |}
    end
  else OErr (OPy (AssertionError suffix_msg)).

Definition load_table (fs : filesystem) (path : string) : ores (gmap string string) :=
  match fs path with
  | None => OErr (OFileNotFound path)
  | Some lines => lift_res (build_table (tokenize lines) ∅)
  end.

(** [Assembler(asmpath, mripath, rripath, ioipath)] *)
Definition init (fs : filesystem) (asmpath mripath rripath ioipath : string)
    : ores assembler :=
  let self0 := {| asm_attr := None; asmfile_attr := None; symtab_attr := ∅;
                  bin_attr := []; mri_attr := ∅; rri_attr := ∅; ioi_attr := ∅ |} in
  let+ self1 := (if bool_decide (asmpath = "") then OOk self0
                 else read_code fs self0 asmpath) in
  let+ mri := (if bool_decide (mripath = "") then OOk ∅ else load_table fs mripath) in
  let+ rri := (if bool_decide (rripath = "") then OOk ∅ else load_table fs rripath) in
  let+ ioi := (if bool_decide (ioipath = "") then OOk ∅ else load_table fs ioipath) in
  OOk {| asm_attr := asm_attr self1; asmfile_attr := asmfile_attr self1;
         symtab_attr := ∅; bin_attr := []; mri_attr := mri; rri_attr := rri;
         ioi_attr := ioi |}.

(** [self.assemble(inp)]: the new instance state and the returned dict
    (which is [self.__bin] itself). *)
Definition assemble_obj (fs : filesystem) (self : assembler) (inp : string)
    : ores (assembler * pydict) :=
  match asm_attr self with
  | None => OErr (OAttributeError "_Assembler__asm")
  | Some asm0 =>
      if bool_decide (asm0 = []) && bool_decide (inp = "")
      then OErr (OPy (AssertionError "no assembly file provided")) else
      let+ _ := (if bool_decide (inp = "") then OOk tt
                 else if has_asm_suffix inp then OOk tt
                 else OErr (OPy (AssertionError suffix_msg))) in
      let+ self1 := (if bool_decide (asm0 = []) then read_code fs self inp else OOk self) in
      match asm_attr self1 with
      | None => OErr (OAttributeError "_Assembler__asm")
      | Some asm1 =>
          let asm := rm_comments asm1 in
          let+ st := lift_res (first_pass asm (symtab_attr self1) (bin_attr self1)) in
          let+ b := lift_res (second_pass asm (tables_of self1) (fp_symtab st) (fp_bin st)) in
          OOk ({| asm_attr := Some asm; asmfile_attr := asmfile_attr self1;
                  symtab_attr := fp_symtab st; bin_attr := b;
                  mri_attr := mri_attr self1; rri_attr := rri_attr self1;
                  ioi_attr := ioi_attr self1 |}, b)
      end
  end.

(** A file system with a register-reference table and a small program. *)
Definition table_files : filesystem :=
  fun p => if bool_decide (p = "rri.txt") then Some ["HLT 1111111111111111"]
           else if bool_decide (p = "prog.asm") then Some ["ORG 100"; "HLT"; "END"]
           else None.

(** ** The Python built-ins on small inputs *)

Example format2bin_dec5 : format2bin "5" "dec" 16 = Ok "0000000000000101".
Proof. reflexivity. Qed.
Example format2bin_hexa : format2bin "a" "hex" 16 = Ok "0000000000001010".
Proof. reflexivity. Qed.
Example hex_255 : py_hex 255 = "0xff".
Proof. reflexivity. Qed.
Example hex_m1 : py_hex (-1) = "-0x1".
Proof. reflexivity. Qed.
Example int_0x : py_int_opt "0x_1f" 16 = Some 31.
Proof. reflexivity. Qed.

(** ** Round trip of [hex] and [int(_, 16)] *)

Lemma hex_char_spec d :
  0 <= d < 16 ->
  digit_value (hex_char d) = d /\ hex_char d <> "_"%char /\
  hex_char d <> "-"%char /\ hex_char d <> "+"%char /\
  hex_char d <> "x"%char /\ hex_char d <> "X"%char.
Proof.
  intros Hd.
  assert (d = 0 \/ d = 1 \/ d = 2 \/ d = 3 \/ d = 4 \/ d = 5 \/ d = 6 \/ d = 7 \/
          d = 8 \/ d = 9 \/ d = 10 \/ d = 11 \/ d = 12 \/ d = 13 \/ d = 14 \/ d = 15)
    as Hcases by lia.
  repeat destruct Hcases as [-> | Hcases]; subst;
    vm_compute; repeat split; discriminate.
Qed.

Lemma parse_body_digit base c s acc u nd :
  c <> "_"%char -> digit_value c < base ->
  parse_body base (String c s) acc u nd =
  parse_body base s (acc * base + digit_value c) true false.
Proof.
  intros Hc Hlt. simpl. rewrite bool_decide_false by done.
  destruct (Z.ltb_spec (digit_value c) base); [reflexivity | lia].
Qed.

Lemma hex_aux_parse f n acc u nd :
  0 <= n -> (Z.to_nat n < f)%nat ->
  parse_body 16 (hex_aux f n acc) 0 u nd = parse_body 16 acc n true false.
Proof.
  revert n acc u nd. induction f as [|f IH]; intros n acc u nd Hn Hf; [lia|].
  simpl hex_aux.
  destruct (hex_char_spec (n mod 16)) as (Hv & Hu & _); [apply Z.mod_pos_bound; lia|].
  destruct (Z.ltb_spec n 16) as [Hlt|Hge].
  - rewrite parse_body_digit by first [exact Hu | rewrite Hv; apply Z.mod_pos_bound; lia].
    rewrite Hv, Z.mod_small by lia. reflexivity.
  - rewrite IH.
    + rewrite parse_body_digit by first [exact Hu | rewrite Hv; apply Z.mod_pos_bound; lia].
      rewrite Hv. f_equal. pose proof (Z.div_mod n 16). lia.
    + apply Z.div_pos; lia.
    + assert (n / 16 < n) by (apply Z.div_lt; lia). lia.
Qed.

Lemma hex_aux_shape f n acc :
  0 <= n -> exists d r, hex_aux (S f) n acc = String (hex_char d) r /\ 0 <= d < 16 /\
    (r = acc \/ exists d' r', r = String (hex_char d') r' /\ 0 <= d' < 16).
Proof.
  revert n acc. induction f as [|f IH]; intros n acc Hn; simpl hex_aux.
  - destruct (n <? 16); simpl; eauto 10 using Z.mod_pos_bound with lia.
  - destruct (Z.ltb_spec n 16).
    + exists (n mod 16), acc. split; [done|]. split; [apply Z.mod_pos_bound; lia|]. by left.
    + change (hex_aux (S f) (n / 16) (String (hex_char (n mod 16)) acc))
        with (hex_aux (S f) (n / 16) (String (hex_char (n mod 16)) acc)).
      destruct (IH (n / 16) (String (hex_char (n mod 16)) acc)) as (d & r & Heq & Hd & Hr);
        [apply Z.div_pos; lia|].
      exists d, r. split; [exact Heq|]. split; [exact Hd|].
      destruct Hr as [-> | Hr]; [right | right; exact Hr].
      exists (n mod 16), acc. split; [done | apply Z.mod_pos_bound; lia].
Qed.

Lemma py_int_hex_digits v :
  0 <= v -> py_int (hex_digits v) 16 = Ok v.
Proof.
  intros Hv. unfold py_int, hex_digits.
  destruct (hex_aux_shape (Z.to_nat v) v EmptyString Hv) as (d & r & Heq & Hd & Hr).
  pose proof (hex_aux_parse (S (Z.to_nat v)) v EmptyString false true Hv ltac:(lia)) as Hp.
  rewrite Heq in *. destruct (hex_char_spec d Hd) as (_ & _ & Hm & Hpl & _).
  unfold py_int_opt.
  rewrite (bool_decide_false _ Hm), (bool_decide_false _ Hpl). simpl.
  assert (Hpre : match String (hex_char d) r with
          | String z (String x r0) =>
              if bool_decide (z = "0"%char) && (bool_decide (x = "x"%char) || bool_decide (x = "X"%char))
              then (true, r0) else (false, String (hex_char d) r)
          | _ => (false, String (hex_char d) r) end = (false, String (hex_char d) r)).
  { destruct Hr as [-> | (d' & r' & -> & Hd')]; [reflexivity|].
    destruct (hex_char_spec d' Hd') as (_ & _ & _ & _ & Hx & HX).
    rewrite (bool_decide_false _ Hx), (bool_decide_false _ HX).
    by rewrite andb_false_r. }
  rewrite Hpre. simpl in Hp |- *. rewrite Hp. simpl. by rewrite Z.mul_1_l.
Qed.

Lemma str_drop_2_hex v : 0 <= v -> str_drop 2 (py_hex v) = hex_digits v.
Proof.
  intros Hv. unfold py_hex. destruct (Z.ltb_spec v 0); [lia|]. reflexivity.
Qed.

Lemma py_int_negative_hex v :
  v < 0 -> py_int (str_drop 2 (py_hex v)) 16 = Err ValueError.
Proof.
  intros Hv. unfold py_hex. destruct (Z.ltb_spec v 0); [|lia].
  simpl. destruct (hex_digits (- v)); reflexivity.
Qed.

Lemma format2bin_hex_ok s v w :
  py_int s 16 = Ok v -> format2bin s "hex" w = Ok (py_zfill w (py_format_b v)).
Proof. intros H. unfold format2bin. simpl. by rewrite H. Qed.

Lemma fp_ctr_ok org o inc :
  py_int org 16 = Ok o -> 0 <= o + inc -> fp_ctr org inc = Ok (addr_str (o + inc)).
Proof.
  intros Ho Hnn. unfold fp_ctr. rewrite Ho. cbn [rbind].
  rewrite str_drop_2_hex by done. apply format2bin_hex_ok, py_int_hex_digits; done.
Qed.

Lemma fp_ctr_neg org o inc :
  py_int org 16 = Ok o -> o + inc < 0 -> fp_ctr org inc = Err ValueError.
Proof.
  intros Ho Hneg. unfold fp_ctr. rewrite Ho. cbn [rbind].
  unfold format2bin. rewrite bool_decide_false by done.
  rewrite bool_decide_true by done. by rewrite py_int_negative_hex.
Qed.

(** ** The dict model: keys stay unique, and pruning keeps the assigned entries *)

Lemma dict_set_keys (d : pydict) k v :
  map fst (dict_set d k v) =
  if bool_decide (k ∈ map fst d) then map fst d else map fst d ++ [k].
Proof.
  induction d as [|[k' v'] d IH]; simpl; [done|].
  destruct (decide (k' = k)) as [->|Hne].
  - rewrite (bool_decide_true (k = k)) by done.
    rewrite (bool_decide_true (k ∈ k :: map fst d)) by constructor. done.
  - rewrite (bool_decide_false (k' = k)) by done. simpl. rewrite IH.
    destruct (decide (k ∈ map fst d)) as [Hin|Hin].
    + rewrite (bool_decide_true (k ∈ map fst d)) by done.
      rewrite (bool_decide_true (k ∈ k' :: map fst d)) by (by constructor). done.
    + rewrite (bool_decide_false (k ∈ map fst d)) by done.
      rewrite (bool_decide_false (k ∈ k' :: map fst d)); [done|].
      intros H. apply elem_of_cons in H as [->|?]; done.
Qed.

Lemma dict_set_nodup (d : pydict) k v :
  NoDup (map fst d) -> NoDup (map fst (dict_set d k v)).
Proof.
  intros Hnd. rewrite dict_set_keys. case_bool_decide as Hin; [done|].
  apply NoDup_app. split; [done|]. split; [|apply NoDup_singleton].
  intros x Hx Hx'. apply list_elem_of_singleton in Hx'. subst. done.
Qed.

Lemma dict_pop_app (l1 l2 : pydict) k v :
  k ∉ map fst l1 -> dict_pop (l1 ++ (k, v) :: l2) k = Ok (l1 ++ l2).
Proof.
  induction l1 as [|[k' v'] l1 IH]; intros Hk; simpl.
  - by rewrite bool_decide_true.
  - rewrite bool_decide_false.
    + rewrite IH; [done|]. intros Hin. apply Hk. by constructor.
    + intros ->. apply Hk. constructor.
Qed.

Lemma prune_go (suf pre : pydict) :
  NoDup (map fst (pre ++ suf)) ->
  fold_left (fun acc kv =>
               let* b := acc in
               match kv.2 with None => dict_pop b kv.1 | Some _ => Ok b end)
            suf (Ok (List.filter assigned pre ++ suf))
  = Ok (List.filter assigned (pre ++ suf)).
Proof.
  revert pre. induction suf as [|[k v] suf IH]; intros pre Hnd; simpl.
  - by rewrite !app_nil_r.
  - assert (Hk : k ∉ map fst (List.filter assigned pre)).
    { intros Hin. rewrite map_app in Hnd. simpl in Hnd.
      apply NoDup_app in Hnd as (_ & Hdis & _).
      apply list_elem_of_In, in_map_iff in Hin as ([k' v'] & Hk' & Hin).
      simpl in Hk'. subst k'.
      apply (Hdis k); [|constructor].
      apply list_elem_of_In, in_map_iff. exists (k, v'). split; [done|].
      apply filter_In in Hin as [Hin _]. done. }
    destruct v as [w|]; simpl.
    + replace (List.filter assigned pre ++ (k, Some w) :: suf)
        with (List.filter assigned (pre ++ [(k, Some w)]) ++ suf).
      * rewrite IH; [by rewrite <- app_assoc | by rewrite <- app_assoc].
      * rewrite List.filter_app. simpl. by rewrite <- app_assoc.
    + rewrite dict_pop_app by done.
      replace (List.filter assigned pre ++ suf)
        with (List.filter assigned (pre ++ [(k, None)]) ++ suf).
      * rewrite IH; [by rewrite <- app_assoc | by rewrite <- app_assoc].
      * rewrite List.filter_app. simpl. by rewrite app_nil_r.
Qed.

Lemma prune_spec (b : pydict) :
  NoDup (map fst b) -> prune b = Ok (List.filter assigned b).
Proof. intros Hnd. apply (prune_go b []). done. Qed.

Lemma filter_keys_nodup (l : pydict) :
  NoDup (map fst l) -> NoDup (map fst (List.filter assigned l)).
Proof.
  induction l as [|[k v] l IH]; intros Hnd; simpl; [constructor|].
  apply NoDup_cons in Hnd as [Hk Hnd].
  destruct (assigned (k, v)); simpl; [|by apply IH].
  constructor; [|by apply IH].
  intros Hin. apply Hk. apply list_elem_of_In in Hin. apply list_elem_of_In.
  apply in_map_iff in Hin as ([k' v'] & Hk' & Hin). simpl in Hk'. subst k'.
  apply filter_In in Hin as [Hin _]. apply in_map_iff. by exists (k, v').
Qed.

Lemma fp_step_nodup st l st' :
  fp_step st l = Ok (FNext st') ->
  NoDup (map fst (fp_bin st)) -> NoDup (map fst (fp_bin st')).
Proof.
  intros H Hnd. unfold fp_step in H. crush_hyp H.
  all: injection H as <-; simpl; by apply dict_set_nodup.
Qed.

Lemma fp_loop_nodup ls st st' :
  fp_loop st ls = Ok st' ->
  NoDup (map fst (fp_bin st)) -> NoDup (map fst (fp_bin st')).
Proof.
  revert st. induction ls as [|l ls IH]; intros st H Hnd; simpl in H.
  - by injection H as <-.
  - crush_hyp H.
    + by injection H as <-.
    + eapply IH; [exact H|]. eapply fp_step_nodup; eassumption.
Qed.

Lemma store_nodup bin i v b :
  store bin i v = Ok b -> NoDup (map fst bin) -> NoDup (map fst b).
Proof.
  intros H Hnd. unfold store in H. crush_hyp H. injection H as <-.
  by apply dict_set_nodup.
Qed.

Lemma sp_step_nodup tb sym flag bin i l flag' b :
  sp_step tb sym flag bin i l = Ok (Some (flag', b)) ->
  NoDup (map fst bin) -> NoDup (map fst b).
Proof.
  intros H Hnd. unfold sp_step in H. crush_hyp H.
  all: injection H as <- <-; first [done | eapply store_nodup; eassumption].
Qed.

Lemma sp_loop_nodup tb sym ls flag bin i b :
  sp_loop tb sym flag bin i ls = Ok b ->
  NoDup (map fst bin) -> NoDup (map fst b).
Proof.
  revert flag bin i. induction ls as [|l ls IH]; intros flag bin i H Hnd; simpl in H.
  - by injection H as <-.
  - crush_hyp H. destruct a as [[f b']|].
    + eapply IH; [exact H|]. eapply sp_step_nodup; eassumption.
    + by injection H as <-.
Qed.

Lemma assemble_final (asm : list (list string)) tb img :
  assemble asm tb = Ok img ->
  exists b, NoDup (map fst b) /\ img = List.filter assigned b.
Proof.
  intros H. unfold assemble in H. destruct asm as [|l0 asm]; [discriminate|].
  crush_hyp H. unfold second_pass in H. crush_hyp H.
  unfold first_pass in E. crush_hyp E.
  assert (Hnd : NoDup (map fst (fp_bin a))).
  { eapply fp_loop_nodup; [exact E|]. constructor. }
  assert (Hnd' : NoDup (map fst a0)) by (eapply sp_loop_nodup; eassumption).
  exists a0. split; [done|]. rewrite prune_spec in H by done. by injection H.
Qed.

(** ** Pass 1: how the loop goes on *)

Lemma fp_step_break st l :
  fp_step st l = Ok FBreak -> hd_error l = Some "end".
Proof.
  intros H. unfold fp_step in H. crush_hyp H.
  destruct l as [|t l]; [discriminate|]. injection E as ->.
  apply bool_decide_eq_true in E0. by subst.
Qed.

Lemma fp_step_next_not_end st l st' :
  fp_step st l = Ok (FNext st') -> hd_error l <> Some "end".
Proof.
  intros H. unfold fp_step in H. crush_hyp H.
  all: destruct l as [|t l]; [discriminate|]; injection E as ->; simpl;
       intros [= ->]; by rewrite bool_decide_true in E0.
Qed.

Lemma fp_loop_app st pre post :
  (forall l, l ∈ pre -> hd_error l <> Some "end") ->
  fp_loop st (pre ++ post) = (let* st' := fp_loop st pre in fp_loop st' post).
Proof.
  revert st. induction pre as [|l pre IH]; intros st Hpre; [done|]. simpl.
  destruct (fp_step st l) as [[|st']|e] eqn:E; cbn [rbind]; [|by apply IH; intros; apply Hpre; constructor|done].
  exfalso. apply (Hpre l); [constructor|]. by eapply fp_step_break.
Qed.

Lemma fp_loop_linecounter st pre st' :
  (forall l, l ∈ pre -> hd_error l <> Some "end") ->
  fp_loop st pre = Ok st' -> fp_linecounter st' = (fp_linecounter st + length pre)%nat.
Proof.
  revert st. induction pre as [|l pre IH]; intros st Hpre H; simpl in H.
  - injection H as <-. simpl. lia.
  - crush_hyp H.
    + exfalso. apply (Hpre l); [constructor|]. by eapply fp_step_break.
    + rewrite (IH _ (fun l' Hl' => Hpre l' ltac:(by constructor)) H).
      unfold fp_step in E. crush_hyp E; injection E as <-; simpl; lia.
Qed.

(** A line whose first token is not [k] leaves the binding of [k] alone. *)
Lemma fp_step_other_label st l st' k :
  fp_step st l = Ok (FNext st') -> hd_error l <> Some k ->
  fp_symtab st' !! k = fp_symtab st !! k.
Proof.
  intros H Hk. unfold fp_step in H. crush_hyp H.
  all: injection H as <-; simpl; try done.
  destruct l as [|t l]; [discriminate|]. injection E as ->.
  destruct (islabel a); [|by injection E3 as <-].
  destruct (2 <=? length (a :: l))%nat; [|discriminate]. injection E3 as <-.
  rewrite lookup_insert_ne; [done|]. intros ->. by apply Hk.
Qed.

(** A label definition binds the label to the address of its own line. *)
Lemma fp_step_label st lbl rest st' :
  islabel lbl = true -> fp_step st (lbl :: rest) = Ok (FNext st') ->
  exists a, fp_ctr (fp_org st) (fp_inc st) = Ok a /\ fp_symtab st' !! lbl = Some a.
Proof.
  intros Hl H. unfold fp_step in H. crush_hyp H.
  all: injection E as <-; injection H as <-; simpl.
  all: apply bool_decide_eq_false in E0.
  rewrite bool_decide_false in E1.
  2: { intros ->. discriminate Hl. }
  injection E1 as <-. simpl in E2.
  rewrite Hl in E3. destruct rest; simpl in E3; [discriminate|]. injection E3 as <-.
  exists a1. split; [done|]. apply lookup_insert_eq.
Qed.

Lemma fp_loop_keeps_label st ls st' k :
  fp_loop st ls = Ok st' ->
  (forall l, l ∈ upto_end ls -> hd_error l <> Some k) ->
  fp_symtab st' !! k = fp_symtab st !! k.
Proof.
  revert st. induction ls as [|l ls IH]; intros st H Hk; simpl in H.
  - by injection H as <-.
  - crush_hyp H.
    + by injection H as <-.
    + pose proof (fp_step_next_not_end _ _ _ E) as Hne.
      simpl in Hk. rewrite bool_decide_false in Hk by done.
      rewrite (IH _ H).
      * apply (fp_step_other_label _ _ _ _ E). apply Hk. constructor.
      * intros l' Hl'. apply Hk. by constructor.
Qed.

Lemma first_pass_last_def asm l0 org st pre lbl rest post :
  asm !! 0%nat = Some l0 -> l0 !! 1%nat = Some org ->
  first_pass asm ∅ [] = Ok st ->
  body_lines asm = pre ++ (lbl :: rest) :: post ->
  islabel lbl = true ->
  (forall l, l ∈ pre -> hd_error l <> Some "end") ->
  (forall l, l ∈ upto_end post -> hd_error l <> Some lbl) ->
  exists stp a, fp_loop (fp_init org ∅ []) pre = Ok stp /\
                fp_ctr (fp_org stp) (fp_inc stp) = Ok a /\
                fp_symtab st !! lbl = Some a.
Proof.
  intros H0 H1 Hfp Hbody Hl Hpre Hpost.
  unfold first_pass, py_index in Hfp. rewrite H0 in Hfp. cbn [rbind] in Hfp.
  rewrite H1 in Hfp. cbn [rbind] in Hfp.
  rewrite Hbody, fp_loop_app in Hfp by done.
  destruct (fp_loop (fp_init org ∅ []) pre) as [stp|e] eqn:Epre; cbn [rbind] in Hfp; [|discriminate].
  simpl in Hfp.
  destruct (fp_step stp (lbl :: rest)) as [[|st1]|e] eqn:Estep; cbn [rbind] in Hfp; try discriminate.
  - apply fp_step_break in Estep. simpl in Estep. injection Estep as ->. discriminate.
  - destruct (fp_step_label _ _ _ _ Hl Estep) as (a & Ha & Hsym).
    exists stp, a. split; [done|]. split; [done|].
    rewrite (fp_loop_keeps_label _ _ _ _ Hfp Hpost). done.
Qed.

(** ** Pass 1 never consults the symbol table *)

Lemma fp_step_indep st1 st2 l :
  same_but_symtab st1 st2 -> res_rel out_rel (fp_step st1 l) (fp_step st2 l).
Proof.
  destruct st1 as [o1 i1 c1 s1 b1], st2 as [o2 i2 c2 s2 b2].
  unfold same_but_symtab. cbn [fp_org fp_inc fp_linecounter fp_bin].
  intros (<- & <- & <- & <-). unfold fp_step.
  cbn [fp_org fp_inc fp_linecounter fp_symtab fp_bin].
  destruct (py_index l 0) as [t0|e]; cbn [rbind]; [|done].
  destruct (bool_decide (t0 = "end")); [done|].
  destruct (if bool_decide (t0 = "org") then let* o := py_index l 1 in Ok (o, -1)
            else Ok (o1, i1)) as [oi|e]; cbn [rbind]; [|done].
  destruct (fp_ctr oi.1 oi.2) as [ctr|e]; cbn [rbind]; [|done].
  destruct (islabel t0); [destruct (2 <=? length l)%nat|]; cbn [rbind res_rel];
    try done; repeat split.
Qed.

Lemma fp_loop_indep ls st1 st2 :
  same_but_symtab st1 st2 -> res_rel same_but_symtab (fp_loop st1 ls) (fp_loop st2 ls).
Proof.
  revert st1 st2. induction ls as [|l ls IH]; intros st1 st2 Hs; simpl; [done|].
  pose proof (fp_step_indep st1 st2 l Hs) as Hstep.
  destruct (fp_step st1 l) as [[|n1]|e1], (fp_step st2 l) as [[|n2]|e2];
    cbn [rbind]; simpl in Hstep; try done.
  by apply IH.
Qed.

(** ** Pass 1 binds label tokens as written *)

Lemma fp_step_label_keys st l st' :
  fp_step st l = Ok (FNext st') ->
  (forall k v, fp_symtab st !! k = Some v -> islabel k = true) ->
  forall k v, fp_symtab st' !! k = Some v -> islabel k = true.
Proof.
  intros H Hinv. unfold fp_step in H. crush_hyp H. injection H as <-. simpl.
  destruct l as [|t l]; [discriminate|]. injection E as ->.
  destruct (islabel a) eqn:Hl; [destruct (2 <=? length (a :: l))%nat|];
    try discriminate E3; injection E3 as <-; [|done].
  intros k v Hk. destruct (decide (a = k)) as [<-|Hne]; [done|].
  rewrite lookup_insert_ne in Hk by done. by eapply Hinv.
Qed.

Lemma fp_loop_label_keys ls st st' :
  fp_loop st ls = Ok st' ->
  (forall k v, fp_symtab st !! k = Some v -> islabel k = true) ->
  forall k v, fp_symtab st' !! k = Some v -> islabel k = true.
Proof.
  revert st. induction ls as [|l ls IH]; intros st H Hinv; simpl in H.
  - by injection H as <-.
  - crush_hyp H; [by injection H as <-|].
    eapply IH; [exact H|]. by eapply fp_step_label_keys.
Qed.

Lemma islabel_append_comma x : islabel (x +:+ ",") = true.
Proof.
  unfold islabel. induction x as [|c x IH]; [reflexivity|].
  simpl. destruct (x +:+ ",") eqn:E; [destruct x; discriminate|]. exact IH.
Qed.

(** ** Relocation bookkeeping in Pass 1 *)

Lemma islabel_not_keyword lbl :
  islabel lbl = true -> lbl <> "end" /\ lbl <> "org".
Proof. intros Hl. split; intros ->; discriminate Hl. Qed.

Lemma fp_step_org st o rest v :
  py_int o 16 = Ok v -> 1 <= v ->
  fp_step st ("org" :: o :: rest) =
  Ok (FNext {| fp_org := o; fp_inc := 0; fp_linecounter := S (fp_linecounter st);
               fp_symtab := fp_symtab st;
               fp_bin := dict_set (fp_bin st) (addr_str (v - 1)) None |}).
Proof.
  intros Ho Hv. unfold fp_step. cbn [py_index lookup list_lookup rbind].
  rewrite (bool_decide_false ("org" = "end")) by done.
  rewrite (bool_decide_true ("org" = "org")) by done. cbn [rbind fst snd].
  rewrite (fp_ctr_ok o v (-1) Ho) by lia. cbn [rbind islabel str_ends_with_comma].
  replace (v + -1) with (v - 1) by lia. reflexivity.
Qed.

Lemma fp_step_plain st l o :
  plain_line l -> py_int (fp_org st) 16 = Ok o -> 0 <= o + fp_inc st ->
  exists st', fp_step st l = Ok (FNext st') /\ fp_org st' = fp_org st /\
    fp_inc st' = fp_inc st + 1 /\
    fp_bin st' = dict_set (fp_bin st) (addr_str (o + fp_inc st)) None.
Proof.
  intros (t0 & r & -> & Hend & Horg & Hlab) Ho Hnn. unfold fp_step.
  cbn [py_index lookup list_lookup rbind].
  rewrite (bool_decide_false (t0 = "end")) by done.
  rewrite (bool_decide_false (t0 = "org")) by done. cbn [rbind fst snd].
  rewrite (fp_ctr_ok _ o) by done. cbn [rbind].
  destruct (islabel t0) eqn:Hl.
  - destruct r as [|t1 r]; [by destruct Hlab|]. cbn [rbind length Nat.leb].
    eexists. split; [reflexivity|]. simpl. done.
  - cbn [rbind]. eexists. split; [reflexivity|]. simpl. done.
Qed.

Lemma fp_loop_plain ls st o :
  Forall plain_line ls -> py_int (fp_org st) 16 = Ok o -> 0 <= o + fp_inc st ->
  exists st', fp_loop st ls = Ok st' /\ fp_org st' = fp_org st /\
    fp_inc st' = fp_inc st + Z.of_nat (length ls) /\
    fp_bin st' = set_pending (fp_bin st) (pending_addrs (o + fp_inc st) (length ls)).
Proof.
  revert st. induction ls as [|l ls IH]; intros st Hall Ho Hnn.
  - exists st. simpl. repeat split; lia.
  - inversion Hall as [|? ? Hl Hls]; subst.
    destruct (fp_step_plain st l o Hl Ho Hnn) as (st1 & Hstep & Horg & Hinc & Hbin).
    destruct (IH st1 Hls) as (st2 & Hloop & Horg2 & Hinc2 & Hbin2);
      [by rewrite Horg | lia|].
    exists st2. simpl. rewrite Hstep. cbn [rbind]. rewrite Hloop.
    split; [done|]. split; [congruence|]. split; [lia|].
    rewrite Hbin2, Hbin, Hinc. unfold set_pending. simpl.
    replace (o + (fp_inc st + 1)) with (o + fp_inc st + 1) by lia. reflexivity.
Qed.

(** ** The word Pass 2 composes for a memory-reference line *)

Lemma sp_step_mri tb sym flag bin i line op x a :
  mri_line tb line op x -> sym !! (x +:+ ",") = Some a ->
  sp_step tb sym flag bin i line =
  (let* b := store bin i (indirect_bit (drop 1 line) +:+ op +:+ a) in Ok (Some (flag, b))).
Proof.
  intros Hm Ha. destruct Hm as [t0 t1 rest op' He Hh H0 H1 Hm|t0 t1 t2 rest op' He Hh H0 H1 Hm0 Hm].
  all: unfold sp_step; cbn [py_index lookup list_lookup rbind].
  all: rewrite (bool_decide_false (t0 = "end")) by done; rewrite Hh.
  all: unfold py_in_keys, py_lookup; rewrite H0; cbn [rbind]; rewrite H1.
  - rewrite Hm. cbn [rbind]. rewrite Ha. reflexivity.
  - rewrite Hm0, Hm. cbn [rbind]. rewrite Ha. reflexivity.
Qed.

(** ** [zfill] of a nonnegative number *)

Lemma length_append (s t : string) :
  String.length (s +:+ t) = (String.length s + String.length t)%nat.
Proof. induction s as [|c s IH]; simpl; [done|]. by rewrite IH. Qed.

Lemma length_str_repeat n c : String.length (str_repeat n c) = n.
Proof. induction n as [|n IH]; simpl; [done|]. by rewrite IH. Qed.

Lemma pos_bin_head p : exists r, pos_bin p = String "1" r.
Proof.
  induction p as [p [r IH]|p [r IH]|]; simpl; [| |by exists ""].
  all: rewrite IH; eexists; reflexivity.
Qed.

Lemma format_b_nonneg_head v :
  0 <= v -> exists c r, py_format_b v = String c r /\ c <> "-"%char /\ c <> "+"%char.
Proof.
  intros Hv. destruct v as [|p|p]; simpl.
  - by exists "0"%char, "".
  - destruct (pos_bin_head p) as [r ->]. by exists "1"%char, r.
  - lia.
Qed.

Lemma zfill_unsigned w s :
  (exists c r, s = String c r /\ c <> "-"%char /\ c <> "+"%char) ->
  exists n, py_zfill w s = str_repeat n "0" +:+ s /\
            String.length (py_zfill w s) = Nat.max w (String.length s).
Proof.
  intros (c & r & -> & Hm & Hp). unfold py_zfill.
  destruct (Nat.leb_spec w (String.length (String c r))) as [Hle|Hgt].
  - exists 0%nat. split; [done|]. lia.
  - rewrite (bool_decide_false (c = "-"%char)) by done.
    rewrite (bool_decide_false (c = "+"%char)) by done. simpl orb. cbv iota.
    eexists. split; [reflexivity|].
    rewrite length_append, length_str_repeat. lia.
Qed.

(** ** Binary strings read back with [int(_, 2)] *)

Lemma string_app_assoc s t u : (s +:+ t) +:+ u = s +:+ (t +:+ u).
Proof. induction s as [|c s IH]; [reflexivity|]. exact (f_equal (String c) IH). Qed.

Lemma string_app_nil s : s +:+ "" = s.
Proof. induction s as [|c s IH]; [reflexivity|]. exact (f_equal (String c) IH). Qed.

Lemma parse_pos_bin p r acc u nd :
  parse_body 2 (pos_bin p +:+ r) acc u nd =
  parse_body 2 r (acc * 2 ^ Z.of_nat (String.length (pos_bin p)) + Z.pos p) true false.
Proof.
  revert r acc u nd. induction p as [p IH|p IH|]; intros r acc u nd; simpl.
  - rewrite string_app_assoc, IH. simpl. f_equal.
    rewrite length_append. simpl. rewrite Nat2Z.inj_add, Z.pow_add_r by lia.
    rewrite (Pos2Z.inj_xI p). change (digit_value "1") with 1. change (2 ^ Z.of_nat 1) with 2. ring.
  - rewrite string_app_assoc, IH. simpl. f_equal.
    rewrite length_append. simpl. rewrite Nat2Z.inj_add, Z.pow_add_r by lia.
    rewrite (Pos2Z.inj_xO p). change (digit_value "0") with 0. change (2 ^ Z.of_nat 1) with 2. ring.
  - f_equal.
Qed.

Lemma parse_zeros n s u nd :
  parse_body 2 (str_repeat (S n) "0" +:+ s) 0 u nd = parse_body 2 s 0 true false.
Proof.
  revert u nd. induction n as [|n IH]; intros u nd; [reflexivity|].
  change (parse_body 2 (str_repeat (S n) "0" +:+ s) (0 * 2 + 0) true false =
          parse_body 2 s 0 true false).
  apply IH.
Qed.

Lemma parse_padded_pos n p u nd :
  parse_body 2 (str_repeat n "0" +:+ pos_bin p) 0 u nd = Some (Z.pos p).
Proof.
  assert (H : forall u nd, parse_body 2 (pos_bin p) 0 u nd = Some (Z.pos p)).
  { intros u' nd'. rewrite <- (string_app_nil (pos_bin p)), parse_pos_bin. done. }
  destruct n as [|n]; [apply H|]. rewrite parse_zeros. apply H.
Qed.

Lemma py_int_opt_unsigned c r :
  c <> "-"%char -> c <> "+"%char ->
  py_int_opt (String c r) 2 = parse_body 2 (String c r) 0 false true.
Proof.
  intros Hm Hp. unfold py_int_opt.
  rewrite (bool_decide_false _ Hm), (bool_decide_false _ Hp). cbn -[parse_body].
  destruct (parse_body _ _ _ _ _); simpl; [f_equal; lia|reflexivity].
Qed.

Lemma py_int_opt_minus r :
  py_int_opt (String "-" r) 2 = option_map (Z.mul (-1)) (parse_body 2 r 0 false true).
Proof. reflexivity. Qed.

Lemma py_zfill_unsigned w c r :
  c <> "-"%char -> c <> "+"%char ->
  exists n, py_zfill w (String c r) = str_repeat n "0" +:+ String c r.
Proof.
  intros Hm Hp. unfold py_zfill. cbv zeta.
  destruct (w <=? _)%nat; [by exists O|].
  rewrite (bool_decide_false _ Hm), (bool_decide_false _ Hp). simpl orb. cbv iota.
  eexists. reflexivity.
Qed.

Lemma py_zfill_minus w r :
  exists n, py_zfill w (String "-" r) = String "-" (str_repeat n "0" +:+ r).
Proof.
  unfold py_zfill. cbv zeta.
  destruct (w <=? _)%nat; [by exists O|].
  rewrite (bool_decide_true ("-"%char = "-"%char)) by done. simpl orb. cbv iota.
  eexists. reflexivity.
Qed.

Lemma parse_padded_zero n :
  parse_body 2 (str_repeat n "0" +:+ "0") 0 false true = Some 0.
Proof.
  destruct n as [|n]; [reflexivity|]. rewrite parse_zeros. reflexivity.
Qed.

(** [int(s.zfill(w), 2)] gives back the number whose ['{:b}'] form was
    padded, for every integer, negative ones included. *)
Lemma py_int_zfill_format_b w v :
  py_int (py_zfill w (py_format_b v)) 2 = Ok v.
Proof.
  unfold py_int. destruct v as [|p|p]; simpl py_format_b.
  - destruct (py_zfill_unsigned w "0" "") as [n ->]; [done|done|].
    destruct n as [|n]; [reflexivity|].
    change (str_repeat (S n) "0" +:+ "0") with (String "0" (str_repeat n "0" +:+ "0")).
    rewrite py_int_opt_unsigned by done.
    change (String "0" (str_repeat n "0" +:+ "0")) with (str_repeat (S n) "0" +:+ "0").
    rewrite parse_padded_zero. reflexivity.
  - destruct (pos_bin_head p) as [r Hr]. rewrite Hr.
    destruct (py_zfill_unsigned w "1" r) as [n ->]; [done|done|].
    rewrite <- Hr. destruct n as [|n].
    + change (str_repeat 0 "0" +:+ pos_bin p) with (pos_bin p).
      rewrite Hr, py_int_opt_unsigned, <- Hr by done.
      apply (f_equal (fun o => match o with Some v => Ok v | None => Err ValueError end)
               (parse_padded_pos 0 p false true)).
    + change (str_repeat (S n) "0" +:+ pos_bin p) with
        (String "0" (str_repeat n "0" +:+ pos_bin p)).
      rewrite py_int_opt_unsigned by done.
      change (String "0" (str_repeat n "0" +:+ pos_bin p)) with
        (str_repeat (S n) "0" +:+ pos_bin p).
      rewrite parse_padded_pos. reflexivity.
  - destruct (py_zfill_minus w (pos_bin p)) as [n ->].
    rewrite py_int_opt_minus, parse_padded_pos. reflexivity.
Qed.

Lemma pos_bin_bound p : Z.pos p < 2 ^ Z.of_nat (String.length (pos_bin p)).
Proof.
  induction p as [p IH|p IH|]; simpl pos_bin; [| |reflexivity].
  all: rewrite length_append, Nat2Z.inj_add, Z.pow_add_r by lia.
  all: change (2 ^ Z.of_nat (String.length "1")) with 2;
       change (2 ^ Z.of_nat (String.length "0")) with 2; lia.
Qed.

(** ** Which keys Pass 1 puts in the symbol table *)

Lemma fp_step_symtab_keys st l st' k :
  fp_step st l = Ok (FNext st') ->
  is_Some (fp_symtab st' !! k) <->
  is_Some (fp_symtab st !! k) \/ (islabel k = true /\ hd_error l = Some k).
Proof.
  intros H. unfold fp_step in H. crush_hyp H. injection H as <-. simpl.
  destruct l as [|t l]; [discriminate|]. injection E as ->. simpl.
  destruct (islabel a) eqn:Hl; [destruct (2 <=? length (a :: l))%nat|];
    try discriminate E3; injection E3 as <-.
  - destruct (decide (a = k)) as [<-|Hne].
    + rewrite lookup_insert_eq. split; [intros _; right; by split|intros _; by eexists].
    + rewrite lookup_insert_ne by done.
      split; [by left|intros [Hs|[_ [= ->]]]; [done|congruence]].
  - split; [by left|]. intros [Hs|[Hk [= ->]]]; [done|congruence].
Qed.

Lemma fp_loop_symtab_keys ls st st' k :
  fp_loop st ls = Ok st' ->
  is_Some (fp_symtab st' !! k) <->
  is_Some (fp_symtab st !! k) \/
  (islabel k = true /\ exists l, In l (upto_end ls) /\ hd_error l = Some k).
Proof.
  revert st. induction ls as [|l ls IH]; intros st H; simpl in H.
  - injection H as <-. simpl. split; [by left|]. intros [Hs|(_ & l & [] & _)]. done.
  - crush_hyp H.
    + injection H as <-. apply fp_step_break in E. simpl.
      rewrite bool_decide_true by done.
      split; [by left|]. intros [Hs|(_ & l' & [] & _)]. done.
    + pose proof (fp_step_next_not_end _ _ _ E) as Hne. simpl.
      rewrite bool_decide_false by done.
      rewrite (IH _ H), (fp_step_symtab_keys _ _ _ _ E). simpl.
      split.
      * intros [[Hs|[Hk Hh]]|[Hk (l' & Hl' & Hh)]]; [by left|right|right].
        -- split; [done|]. exists l. by split; [left|].
        -- split; [done|]. exists l'. by split; [right|].
      * intros [Hs|[Hk (l' & [<-|Hl'] & Hh)]]; [by left; left|by left; right|].
        right. split; [done|]. by exists l'.
Qed.

(** The word of a memory-reference line: its operand is looked up in the
    symbol table with ',' appended. *)
Lemma sp_step_mri_lookup tb sym flag bin i line op x :
  mri_line tb line op x ->
  sp_step tb sym flag bin i line =
  (let* a := py_lookup sym (x +:+ ",") in
   let* b := store bin i (indirect_bit (drop 1 line) +:+ op +:+ a) in Ok (Some (flag, b))).
Proof.
  intros Hm. destruct Hm as [t0 t1 rest op' He Hh H0 H1 Hm|t0 t1 t2 rest op' He Hh H0 H1 Hm0 Hm].
  all: unfold sp_step; cbn [py_index lookup list_lookup rbind].
  all: rewrite (bool_decide_false (t0 = "end")) by done; rewrite Hh.
  all: unfold py_in_keys; rewrite H0; cbn [rbind]; rewrite H1.
  - unfold py_lookup. rewrite Hm. reflexivity.
  - unfold py_lookup. rewrite Hm0, Hm. reflexivity.
Qed.

(** * Claims *)

(** ** C1 *)

(** C1 (code_bug): the word of a memory-reference line is stored at
    [list(self.__bin.keys())[i - 1]], which is the line's own address only
    while every line received a fresh key in Pass 1.  In
    [contiguous_program] the directive [org 101] gets the placeholder
    address 100, already taken by the line [x, hlt], so one key is missing:
    Pass 1 allocates 000100000001 to [lda x], but the final image has no
    entry there and the [lda] word 0000000100000000 sits at 000111111111,
    the placeholder of the later [org 200]. *)
Theorem C1_mri_word_misplaced :
  (exists st, fp_loop (fp_init "100" ∅ []) (take 2 (body_lines contiguous_program)) = Ok st /\
              fp_ctr (fp_org st) (fp_inc st) = Ok "000100000001") /\
  assemble contiguous_program spec_tables =
    Ok [("000100000000", Some "1111111111111111");
        ("000111111111", Some "0000000100000000")].
Proof.
  split.
  - eexists. split; vm_compute; reflexivity.
  - vm_compute. reflexivity.
Qed.

(** ** C2 *)

(** C2 (code_bug): [__format2bin] promises a binary representation "with
    max format_bits", and the spec asks for an overflow failure; the code
    has no width check.  For every literal whose value [v] satisfies
    [2 ^ w <= v], it raises nothing and returns a string longer than [w],
    the binary digits of [v] in full (so nothing is truncated either):
    decimal 65536 and hexadecimal 10000 come back at width 16 as the
    17-character string 10000000000000000. *)
Theorem C2_format2bin_exceeds_width num fmt w v :
  (fmt = "dec" /\ py_int num 10 = Ok v \/ fmt = "hex" /\ py_int num 16 = Ok v) ->
  2 ^ Z.of_nat w <= v ->
  exists s, format2bin num fmt w = Ok s /\ (w < String.length s)%nat /\ py_int s 2 = Ok v.
Proof.
  intros Hfmt Hv.
  assert (Hnn : 0 <= v) by (pose proof (Z.pow_pos_nonneg 2 (Z.of_nat w)); lia).
  exists (py_zfill w (py_format_b v)). split; [|split].
  - destruct Hfmt as [[-> Hp] | [-> Hp]]; unfold format2bin.
    + rewrite bool_decide_true by done. by rewrite Hp.
    + rewrite bool_decide_false by done. rewrite bool_decide_true by done. by rewrite Hp.
  - destruct (zfill_unsigned w (py_format_b v) (format_b_nonneg_head v Hnn)) as (n & _ & ->).
    destruct v as [|p|p]; [pose proof (Z.pow_pos_nonneg 2 (Z.of_nat w)); lia| |lia].
    pose proof (pos_bin_bound p) as Hb. simpl py_format_b.
    assert (Hlt : 2 ^ Z.of_nat w < 2 ^ Z.of_nat (String.length (pos_bin p))) by lia.
    apply Z.pow_lt_mono_r_iff in Hlt; lia.
  - apply py_int_zfill_format_b.
Qed.

Lemma C2_witness :
  exists s, format2bin "65536" "dec" 16 = Ok s /\ (16 < String.length s)%nat /\
            py_int s 2 = Ok 65536.
Proof.
  apply (C2_format2bin_exceeds_width "65536" "dec" 16 65536).
  - left. split; [reflexivity | vm_compute; reflexivity].
  - vm_compute. discriminate.
Defined.

(** ** C3 *)

(** C3 (counterexample): the symbol table keeps the terminator: after
    Pass 1 on [org 100 / x, hlt / end] the key is ["x,"]. *)
Lemma C3_label_kept_with_comma :
  exists st, first_pass label_program ∅ [] = Ok st /\
             fp_symtab st !! "x," = Some "000100000000" /\ islabel "x," = true.
Proof. eexists. split; [vm_compute; reflexivity | split; reflexivity]. Qed.

(** C3 (amended): Pass 1 binds each label token as written, comma
    included: after a successful Pass 1 the keys of the symbol table are
    exactly the label tokens (tokens ending in ',') that head a line of
    the body before its first [end] line, so every key ends with ','; and
    Pass 2 looks the operand of a memory-reference line up with ','
    appended, raising [KeyError] on that key when it is missing. *)
Theorem C3_labels_kept_with_comma asm st :
  first_pass asm ∅ [] = Ok st ->
  (forall k, is_Some (fp_symtab st !! k) <->
     islabel k = true /\ exists l, In l (upto_end (body_lines asm)) /\ hd_error l = Some k) /\
  (forall tb flag bin i line op x, mri_line tb line op x ->
     sp_step tb (fp_symtab st) flag bin i line =
     (let* a := py_lookup (fp_symtab st) (x +:+ ",") in
      let* b := store bin i (indirect_bit (drop 1 line) +:+ op +:+ a) in
      Ok (Some (flag, b)))).
Proof.
  intros H. split.
  - intros k. unfold first_pass in H. crush_hyp H.
    rewrite (fp_loop_symtab_keys _ _ _ k H). simpl. rewrite lookup_empty.
    split; [intros [[? Hs]|Hk]; [discriminate|done]|by right].
  - intros tb flag bin i line op x Hm. by apply sp_step_mri_lookup.
Qed.

Lemma C3_witness :
  exists st, first_pass label_program ∅ [] = Ok st /\
  ((forall k, is_Some (fp_symtab st !! k) <->
     islabel k = true /\ exists l, In l (upto_end (body_lines label_program)) /\
                                   hd_error l = Some k) /\
   (forall tb flag bin i line op x, mri_line tb line op x ->
     sp_step tb (fp_symtab st) flag bin i line =
     (let* a := py_lookup (fp_symtab st) (x +:+ ",") in
      let* b := store bin i (indirect_bit (drop 1 line) +:+ op +:+ a) in
      Ok (Some (flag, b))))).
Proof.
  eexists. split; [vm_compute; reflexivity|].
  apply (C3_labels_kept_with_comma label_program). vm_compute. reflexivity.
Defined.

(** ** C4 *)

Lemma sp_loop_step tb sym flag bin i l ls f b :
  sp_step tb sym flag bin i l = Ok (Some (f, b)) ->
  sp_loop tb sym flag bin i (l :: ls) = sp_loop tb sym f b (S i) ls.
Proof. intros H. simpl. by rewrite H. Qed.

Lemma sp_step_hlt tb sym flag bin i line h :
  hd_error line <> Some "end" -> hd_error line <> None ->
  py_in_list "hlt" line = true -> rri_table tb !! "hlt" = Some h ->
  sp_step tb sym flag bin i line = (let* b := store bin i h in Ok (Some (true, b))).
Proof.
  intros He Hn Hh Hr. destruct line as [|t0 line]; [done|].
  unfold sp_step. cbn [py_index lookup list_lookup rbind].
  rewrite bool_decide_false by (intros ->; by apply He). rewrite Hh.
  unfold py_lookup. by rewrite Hr.
Qed.

Lemma sp_step_data_hex tb sym bin i t0 t2 rest :
  t0 <> "end" -> py_in_list "hlt" (t0 :: "hex" :: t2 :: rest) = false ->
  islabel t0 = true ->
  rri_table tb !! t0 = None -> rri_table tb !! "hex" = None ->
  mri_table tb !! t0 = None -> mri_table tb !! "hex" = None ->
  ioi_table tb !! t0 = None -> ioi_table tb !! "hex" = None ->
  sp_step tb sym true bin i (t0 :: "hex" :: t2 :: rest) =
  (let* v := format2bin t2 "hex" 16 in let* b := store bin i v in Ok (Some (true, b))).
Proof.
  intros He Hh Hl Hr0 Hr1 Hm0 Hm1 Hi0 Hi1.
  unfold sp_step. cbn [py_index lookup list_lookup rbind].
  rewrite bool_decide_false by done. rewrite Hh.
  unfold py_in_keys. rewrite Hr0, Hr1, Hm0, Hm1, Hi0, Hi1, Hl. cbn [andb rbind].
  rewrite bool_decide_true by done. reflexivity.
Qed.

(** C4 (counterexample): with the operand written [x,] as in the spec's
    program, Pass 2 looks up ["x,,"] and [assemble] raises [KeyError]. *)
Lemma C4_spec_example_key_error :
  assemble spec_program spec_tables = Err (KeyError "x,,").
Proof. vm_compute. reflexivity. Qed.

(** C4 (amended): with the operand written [x] ([org 100 / lda x / hlt /
    x, hex 1 / end]), any tables binding [hlt] to 1111111111111111 and
    [lda] to 000, and using none of the program's other tokens as
    mnemonics, give exactly the three expected entries. *)
Theorem C4_plain_operand_image tb :
  rri_table tb !! "hlt" = Some "1111111111111111" ->
  mri_table tb !! "lda" = Some "000" ->
  rri_table tb !! "lda" = None -> rri_table tb !! "x" = None ->
  rri_table tb !! "x," = None -> rri_table tb !! "hex" = None ->
  mri_table tb !! "x," = None -> mri_table tb !! "hex" = None ->
  ioi_table tb !! "x," = None -> ioi_table tb !! "hex" = None ->
  assemble spec_program_plain tb =
    Ok [("000100000000", Some ("0" +:+ "000" +:+ "000100000010"));
        ("000100000001", Some "1111111111111111");
        ("000100000010", Some "0000000000000001")].
Proof.
  intros Hhlt Hlda Hr1 Hr2 Hr3 Hr4 Hm1 Hm2 Hi1 Hi2.
  change (assemble spec_program_plain tb) with
    (let* st := first_pass (rm_comments spec_program_plain) ∅ [] in
     second_pass (rm_comments spec_program_plain) tb (fp_symtab st) (fp_bin st)).
  assert (Hrm : rm_comments spec_program_plain = spec_program_plain)
    by (vm_compute; reflexivity).
  assert (Hfp : first_pass spec_program_plain ∅ [] =
    Ok {| fp_org := "100"; fp_inc := 3; fp_linecounter := 3;
          fp_symtab := <[ "x," := "000100000010" ]> ∅;
          fp_bin := [("000100000000", None); ("000100000001", None); ("000100000010", None)] |}).
  { vm_compute. reflexivity. }
  rewrite Hrm, Hfp. cbn [rbind fp_symtab fp_bin]. unfold spec_program_plain.
  unfold second_pass. cbv [body_lines length drop take Nat.sub].
  rewrite (sp_loop_step tb _ false _ 1 ["lda"; "x"] _ false
             [("000100000000", Some "0000000100000010"); ("000100000001", None);
              ("000100000010", None)]).
  2: { rewrite (sp_step_mri tb _ false _ 1 ["lda"; "x"] "000" "x" "000100000010").
       - vm_compute. reflexivity.
       - constructor; done.
       - apply lookup_insert_eq. }
  rewrite (sp_loop_step tb _ false _ 2 ["hlt"] _ true
             [("000100000000", Some "0000000100000010");
              ("000100000001", Some "1111111111111111"); ("000100000010", None)]).
  2: { rewrite (sp_step_hlt tb _ false _ 2 ["hlt"] "1111111111111111") by done.
       vm_compute. reflexivity. }
  rewrite (sp_loop_step tb _ true _ 3 ["x,"; "hex"; "1"] _ true
             [("000100000000", Some "0000000100000010");
              ("000100000001", Some "1111111111111111");
              ("000100000010", Some "0000000000000001")]).
  2: { rewrite (sp_step_data_hex tb _ _ 3 "x," "1" []) by done.
       vm_compute. reflexivity. }
  vm_compute. reflexivity.
Qed.

Lemma C4_witness :
  assemble spec_program_plain spec_tables =
    Ok [("000100000000", Some ("0" +:+ "000" +:+ "000100000010"));
        ("000100000001", Some "1111111111111111");
        ("000100000010", Some "0000000000000001")].
Proof. apply C4_plain_operand_image; reflexivity. Defined.

(** ** C5 *)

(** C5 (code_bug): the spec asks that every address of the final image
    carry one 16-bit word, and [__format2bin] promises at most
    [format_bits] digits, but nothing checks the width: the post-halt
    literal [x, dec 65536] of [overflow_program] leaves the 17-character
    word 10000000000000000 in the image [assemble] returns. *)
Theorem C5_wide_word_survives :
  assemble overflow_program spec_tables =
    Ok [("000100000000", Some "1111111111111111");
        ("000100000001", Some "10000000000000000")] /\
  String.length "10000000000000000" = 17%nat.
Proof. split; vm_compute; reflexivity. Qed.

(** ** C6 *)

(** C6 (counterexample): the directive [org 200] does get a pending entry:
    with [inc = -1] Pass 1 allocates the address 200 - 1 = 1ff to the
    directive line itself, so after Pass 1 on [org 100 / hlt / org 200 /
    hlt / end] the image holds the key 000111111111. *)
Lemma C6_directive_gets_pending_entry :
  exists st, first_pass reloc_program ∅ [] = Ok st /\
    fp_bin st = [("000100000000", None); ("000111111111", None);
                 ("001000000000", None)].
Proof. eexists. split; vm_compute; reflexivity. Qed.

(** C6 (amended): a directive [org o] (with [o] a hexadecimal value
    [v >= 1]) sets the origin to [o] and the offset so that the following
    lines of the segment get [v], [v + 1], ...; but it also inserts a
    pending entry at [v - 1] for the directive line itself, before them. *)
Theorem C6_relocation_bookkeeping st o rest v ls :
  py_int o 16 = Ok v -> 1 <= v -> Forall plain_line ls ->
  exists st', fp_loop st (("org" :: o :: rest) :: ls) = Ok st' /\
    fp_org st' = o /\ fp_inc st' = Z.of_nat (length ls) /\
    fp_bin st' = set_pending (fp_bin st) (addr_str (v - 1) :: pending_addrs v (length ls)).
Proof.
  intros Ho Hv Hls. cbn [fp_loop]. rewrite (fp_step_org st o rest v Ho Hv). cbn [rbind].
  destruct (fp_loop_plain ls
              {| fp_org := o; fp_inc := 0; fp_linecounter := S (fp_linecounter st);
                 fp_symtab := fp_symtab st;
                 fp_bin := dict_set (fp_bin st) (addr_str (v - 1)) None |} v Hls)
    as (st' & Hl & Horg & Hinc & Hbin); [exact Ho | simpl; lia |].
  exists st'. split; [exact Hl|]. simpl in Horg, Hinc, Hbin.
  split; [done|]. split; [lia|]. rewrite Hbin. by rewrite Z.add_0_r.
Qed.

Lemma C6_witness :
  exists st', fp_loop (fp_init "100" ∅ []) [["org"; "200"]; ["hlt"]] = Ok st' /\
    fp_org st' = "200" /\ fp_inc st' = Z.of_nat (length [["hlt"]]) /\
    fp_bin st' = set_pending (fp_bin (fp_init "100" ∅ []))
                   (addr_str (512 - 1) :: pending_addrs 512 (length [["hlt"]])).
Proof.
  apply (C6_relocation_bookkeeping (fp_init "100" ∅ []) "200" [] 512 [["hlt"]]).
  - vm_compute. reflexivity.
  - lia.
  - repeat constructor. exists "hlt", []. repeat split; discriminate.
Defined.

(** ** C7 *)

Lemma fp_step_lone_label st lbl a :
  islabel lbl = true -> fp_ctr (fp_org st) (fp_inc st) = Ok a ->
  fp_step st [lbl] = Err (AssertionError (label_msg (S (S (fp_linecounter st))))).
Proof.
  intros Hl Ha. destruct (islabel_not_keyword lbl Hl) as [He Ho].
  unfold fp_step. cbn [py_index lookup list_lookup rbind].
  rewrite (bool_decide_false (lbl = "end")) by done.
  rewrite (bool_decide_false (lbl = "org")) by done. cbn [rbind fst snd].
  rewrite Ha. cbn [rbind]. rewrite Hl. reflexivity.
Qed.

Lemma body_lines_lookup asm pre l post :
  body_lines asm = pre ++ l :: post -> asm !! S (length pre) = Some l.
Proof.
  unfold body_lines. intros H.
  assert (Hl : take (length asm - 2) (drop 1 asm) !! length pre = Some l).
  { rewrite H. by apply list_lookup_middle. }
  apply lookup_take_Some in Hl as [Hl _]. by rewrite lookup_drop in Hl.
Qed.

(** C7 (counterexample): the assertion is raised for the first lone label
    Pass 1 reaches, and only if no earlier line fails first.  In [org 100 /
    a, / b, / end] the lone label [b,] on line 3 is never reported (the
    message names line 2), and in [org 100 / (blank) / a, / end] the blank
    line raises [IndexError] before the lone label [a,] is reached. *)
Lemma C7_lone_label_not_reported :
  rm_comments two_lone_labels !! 2%nat = Some ["b,"] /\
  assemble two_lone_labels spec_tables = Err (AssertionError (label_msg 2)) /\
  label_msg 2 <> label_msg 3 /\
  rm_comments blank_then_label !! 2%nat = Some ["a,"] /\
  assemble blank_then_label spec_tables = Err IndexError.
Proof. vm_compute. repeat split; try reflexivity. discriminate. Qed.

(** C7 (amended): if the lines before a lone label [lbl] (at 0-based index
    [length pre + 1], i.e. 1-based line [length pre + 2]) pass Pass 1
    without reaching a terminal directive, and the address of the label's
    line can be computed, then [assemble] fails with the assertion whose
    message names line [length pre + 2]. *)
Theorem C7_first_lone_label_reported asm tb l0 org pre lbl post st a :
  rm_comments asm !! 0%nat = Some l0 -> l0 !! 1%nat = Some org ->
  body_lines (rm_comments asm) = pre ++ [lbl] :: post ->
  islabel lbl = true -> (forall l, l ∈ pre -> hd_error l <> Some "end") ->
  fp_loop (fp_init org ∅ []) pre = Ok st -> fp_ctr (fp_org st) (fp_inc st) = Ok a ->
  rm_comments asm !! S (length pre) = Some [lbl] /\
  assemble asm tb = Err (AssertionError (label_msg (S (S (length pre))))).
Proof.
  intros H0 H1 Hbody Hl Hend Hpre Ha.
  split; [by eapply body_lines_lookup|].
  assert (Hfp : first_pass (rm_comments asm) ∅ [] =
                Err (AssertionError (label_msg (S (S (length pre)))))).
  { unfold first_pass, py_index. rewrite H0. cbn [rbind]. rewrite H1. cbn [rbind].
    rewrite Hbody, fp_loop_app by done. rewrite Hpre. cbn [rbind fp_loop].
    rewrite (fp_step_lone_label st lbl a Hl Ha). cbn [rbind].
    rewrite (fp_loop_linecounter _ _ _ Hend Hpre). reflexivity. }
  destruct asm as [|x asm']; [discriminate|].
  unfold assemble. rewrite Hfp. reflexivity.
Qed.

Lemma C7_witness :
  rm_comments two_lone_labels !! S (length ([] : list (list string))) = Some ["a,"] /\
  assemble two_lone_labels spec_tables =
    Err (AssertionError (label_msg (S (S (length ([] : list (list string))))))).
Proof.
  apply (C7_first_lone_label_reported two_lone_labels spec_tables ["org"; "100"] "100"
           [] "a," [["b,"]] (fp_init "100" ∅ []) "000100000000").
  all: try (vm_compute; reflexivity).
  intros l Hl. inversion Hl.
Defined.

(** ** C8 *)

(** C8 (counterexample): moving the [lda x] line from before the
    definition [x, hlt] to after it moves the definition itself, so the
    address fields differ: 000100000001 in the forward program,
    000100000000 in the backward one. *)
Lemma C8_fields_differ :
  assemble forward_program spec_tables =
    Ok [("000100000000", Some "0000000100000001");
        ("000100000001", Some "1111111111111111")] /\
  assemble backward_program spec_tables =
    Ok [("000100000000", Some "1111111111111111");
        ("000100000001", Some "0000000100000000")].
Proof. split; vm_compute; reflexivity. Qed.

(** C8 (amended): wherever a memory-reference line stands, before or
    after the definition of its operand [x], Pass 2 runs on the complete
    symbol table of Pass 1, so the word it stores carries the address Pass
    1 computed for the last line defining [x,] (before any terminal
    directive). *)
Theorem C8_mri_uses_defining_address asm tb l0 org st pre x rest post
    line op flag bin i :
  asm !! 0%nat = Some l0 -> l0 !! 1%nat = Some org ->
  first_pass asm ∅ [] = Ok st ->
  body_lines asm = pre ++ ((x +:+ ",") :: rest) :: post ->
  (forall l, l ∈ pre -> hd_error l <> Some "end") ->
  (forall l, l ∈ upto_end post -> hd_error l <> Some (x +:+ ",")) ->
  mri_line tb line op x ->
  exists stp a, fp_loop (fp_init org ∅ []) pre = Ok stp /\
    fp_ctr (fp_org stp) (fp_inc stp) = Ok a /\
    sp_step tb (fp_symtab st) flag bin i line =
      (let* b := store bin i (indirect_bit (drop 1 line) +:+ op +:+ a) in
       Ok (Some (flag, b))).
Proof.
  intros H0 H1 Hfp Hbody Hend Hpost Hm.
  destruct (first_pass_last_def asm l0 org st pre (x +:+ ",") rest post
              H0 H1 Hfp Hbody (islabel_append_comma x) Hend Hpost) as (stp & a & Hl & Ha & Hs).
  exists stp, a. split; [done|]. split; [done|]. by apply (sp_step_mri _ _ _ _ _ _ _ x).
Qed.

Lemma C8_witness :
  exists st, first_pass forward_program ∅ [] = Ok st /\
  exists stp a, fp_loop (fp_init "100" ∅ []) [["lda"; "x"]] = Ok stp /\
    fp_ctr (fp_org stp) (fp_inc stp) = Ok a /\
    sp_step spec_tables (fp_symtab st) false (fp_bin st) 1 ["lda"; "x"] =
      (let* b := store (fp_bin st) 1 (indirect_bit (drop 1 ["lda"; "x"]) +:+ "000" +:+ a) in
       Ok (Some (false, b))).
Proof.
  eexists. split; [vm_compute; reflexivity|].
  apply (C8_mri_uses_defining_address forward_program spec_tables ["org"; "100"] "100" _
    [["lda"; "x"]] "x" ["hlt"] [] ["lda"; "x"] "000").
  - reflexivity.
  - reflexivity.
  - vm_compute. reflexivity.
  - vm_compute. reflexivity.
  - intros l Hl. apply list_elem_of_singleton in Hl. subst l. discriminate.
  - intros l Hl. inversion Hl.
  - apply MriPlain; [discriminate | reflexivity ..].
Defined.

(** ** C9 *)

(** C9: a one-token line [t] that is not [end], does not contain [hlt]
    and is not a register-reference mnemonic falls through to
    [self.__asm[i][1]], which raises [IndexError]; the loop of Pass 2
    stops there, whatever follows. *)
Theorem C9_single_token_index_error tb sym flag bin i t post :
  t <> "end" -> t <> "hlt" -> rri_table tb !! t = None ->
  sp_step tb sym flag bin i [t] = Err IndexError /\
  sp_loop tb sym flag bin i ([t] :: post) = Err IndexError.
Proof.
  intros He Hh Hr.
  assert (Hs : sp_step tb sym flag bin i [t] = Err IndexError).
  { unfold sp_step. cbn [py_index lookup list_lookup rbind].
    rewrite (bool_decide_false (t = "end")) by done.
    unfold py_in_list. cbn [existsb]. rewrite (bool_decide_false (t = "hlt")) by done.
    cbn [orb]. unfold py_in_keys. rewrite Hr. reflexivity. }
  split; [done|]. cbn [sp_loop]. by rewrite Hs.
Qed.

Lemma C9_witness :
  assemble single_token_program spec_tables = Err IndexError /\
  sp_step spec_tables ∅ false [("000100000000", None)] 1 ["foo"] = Err IndexError /\
  sp_loop spec_tables ∅ false [("000100000000", None)] 1 (["foo"] :: []) = Err IndexError.
Proof.
  split; [vm_compute; reflexivity|].
  apply (C9_single_token_index_error spec_tables ∅ false [("000100000000", None)] 1 "foo" []).
  - discriminate.
  - discriminate.
  - reflexivity.
Defined.

(** ** C10 *)

(** C10: Pass 1 never reads the symbol table (runs from two states that
    differ only there end alike: both with the same exception, or both
    normally with states that differ only there), so an earlier binding
    of a label cannot make a later definition fail; and after Pass 1 the
    label is bound to the address computed for its last defining line. *)
Theorem C10_redefinition_last_wins asm l0 org st pre lbl rest post :
  asm !! 0%nat = Some l0 -> l0 !! 1%nat = Some org ->
  first_pass asm ∅ [] = Ok st ->
  body_lines asm = pre ++ (lbl :: rest) :: post ->
  islabel lbl = true ->
  (forall l, l ∈ pre -> hd_error l <> Some "end") ->
  (forall l, l ∈ upto_end post -> hd_error l <> Some lbl) ->
  (forall st1 s ls, res_rel same_but_symtab (fp_loop st1 ls) (fp_loop (with_symtab st1 s) ls)) /\
  exists stp a, fp_loop (fp_init org ∅ []) pre = Ok stp /\
                fp_ctr (fp_org stp) (fp_inc stp) = Ok a /\
                fp_symtab st !! lbl = Some a.
Proof.
  intros H0 H1 Hfp Hbody Hl Hend Hpost. split.
  - intros st1 s ls. apply fp_loop_indep. unfold same_but_symtab, with_symtab. done.
  - exact (first_pass_last_def asm l0 org st pre lbl rest post H0 H1 Hfp Hbody Hl Hend Hpost).
Qed.

Lemma C10_witness :
  exists st, first_pass dup_label_program ∅ [] = Ok st /\
  (forall st1 s ls, res_rel same_but_symtab (fp_loop st1 ls) (fp_loop (with_symtab st1 s) ls)) /\
  exists stp a, fp_loop (fp_init "100" ∅ []) [["x,"; "hlt"]] = Ok stp /\
                fp_ctr (fp_org stp) (fp_inc stp) = Ok a /\
                fp_symtab st !! "x," = Some a.
Proof.
  eexists. split; [vm_compute; reflexivity|].
  apply (C10_redefinition_last_wins dup_label_program ["org"; "100"] "100" _
           [["x,"; "hlt"]] "x," ["dec"; "7"] []).
  - reflexivity.
  - reflexivity.
  - vm_compute. reflexivity.
  - vm_compute. reflexivity.
  - reflexivity.
  - intros l Hl. apply list_elem_of_singleton in Hl. subst l. discriminate.
  - intros l Hl. inversion Hl.
Defined.

(** * Further properties of the code *)

(** ** [__rm_comments] *)

Lemma cut_comment_spec l :
  exists suf, l = cut_comment l ++ suf /\
    Forall (fun t => str_starts_with_slash t = false) (cut_comment l) /\
    (suf = [] \/ exists t r, suf = t :: r /\ str_starts_with_slash t = true).
Proof.
  induction l as [|t l (suf & Hl & Hf & Hs) ]; simpl.
  - exists []. split; [done|]. split; [constructor | by left].
  - destruct (str_starts_with_slash t) eqn:Et; simpl.
    + exists (t :: l). split; [done|]. split; [constructor|]. right. by exists t, l.
    + exists suf. split; [by rewrite Hl at 1|]. split; [by constructor|done].
Qed.

Lemma cut_comment_clean l :
  Forall (fun t => str_starts_with_slash t = false) l -> cut_comment l = l.
Proof.
  induction 1 as [|t l Ht _ IH]; simpl; [done|]. by rewrite Ht, IH.
Qed.

(** [__rm_comments] truncates every line just before its first token that
    starts with '/', and nothing else: each new line is a prefix of the old
    one without such a token, the part removed is empty or starts with such
    a token, and removing comments twice is removing them once. *)
Theorem rm_comments_truncates asm :
  Forall2 (fun l l' => exists suf, l = l' ++ suf /\
             Forall (fun t => str_starts_with_slash t = false) l' /\
             (suf = [] \/ exists t r, suf = t :: r /\ str_starts_with_slash t = true))
          asm (rm_comments asm) /\
  rm_comments (rm_comments asm) = rm_comments asm.
Proof.
  unfold rm_comments. induction asm as [|l asm [IH1 IH2]]; simpl; [split; constructor|].
  destruct (cut_comment_spec l) as (suf & Hl & Hf & Hs). split.
  - constructor; [by exists suf|done].
  - rewrite IH2. by rewrite (cut_comment_clean _ Hf).
Qed.

(** ** Tokens of [read_code] and [__load_table] *)

Lemma chars_append s t :
  list_ascii_of_string (s +:+ t) = list_ascii_of_string s ++ list_ascii_of_string t.
Proof. induction s as [|c s IH]; simpl; [done|]. by rewrite IH. Qed.

Lemma py_split_go_tokens (P : ascii -> Prop) s cur :
  (forall c, In c (list_ascii_of_string s) -> py_isspace c = false -> P c) ->
  Forall (fun c => py_isspace c = false /\ P c) (list_ascii_of_string cur) ->
  forall t, In t (py_split_go s cur) ->
    t <> "" /\ Forall (fun c => py_isspace c = false /\ P c) (list_ascii_of_string t).
Proof.
  revert cur. induction s as [|c s IH]; intros cur Hs Hcur t Ht; simpl in Ht.
  - destruct cur as [|c' cur']; [done|]. destruct Ht as [<-|[]]. done.
  - assert (Hs' : forall c', In c' (list_ascii_of_string s) -> py_isspace c' = false -> P c')
      by (intros c' Hc'; apply Hs; by right).
    destruct (py_isspace c) eqn:Ec.
    + destruct cur as [|c' cur'].
      * exact (IH "" Hs' (List.Forall_nil _) t Ht).
      * destruct Ht as [<-|Ht]; [split; [done|exact Hcur]|].
        exact (IH "" Hs' (List.Forall_nil _) t Ht).
    + refine (IH _ Hs' _ t Ht).
      rewrite chars_append. apply Forall_app. split; [done|].
      constructor; [|constructor]. split; [done|]. apply Hs; [by left|done].
Qed.

Lemma py_lower_no_upper s :
  Forall (fun c => py_isupper c = false) (list_ascii_of_string (py_lower s)).
Proof.
  induction s as [|c s IH]; simpl; constructor; [|done].
  unfold py_lower_char. destruct (py_isupper c) eqn:Eu; [|done].
  unfold py_isupper in *. rewrite nat_ascii_embedding.
  - apply andb_true_iff in Eu as [Eu _]. apply Nat.leb_le in Eu.
    apply andb_false_iff. right. apply Nat.leb_gt. lia.
  - apply andb_true_iff in Eu as [_ Eu]. apply Nat.leb_le in Eu. lia.
Qed.

(** Every token that [read_code] (and [__load_table]) produces is a
    non-empty string with no whitespace character and no upper-case ASCII
    letter. *)
Theorem tokenize_tokens lines l t :
  In l (tokenize lines) -> In t l ->
  t <> "" /\
  Forall (fun c => py_isspace c = false /\ py_isupper c = false) (list_ascii_of_string t).
Proof.
  unfold tokenize. intros Hl Ht. apply in_map_iff in Hl as (s & <- & _).
  unfold read_line, py_split in Ht.
  refine (py_split_go_tokens (fun c => py_isupper c = false) _ "" _ (List.Forall_nil _) t Ht).
  intros c Hc _. pose proof (py_lower_no_upper (py_rstrip s)) as H.
  rewrite List.Forall_forall in H. by apply H.
Qed.

Lemma tokenize_tokens_witness :
  In ["org"; "100"] (tokenize ["  ORG 100"]) /\ In "org" ["org"; "100"] /\
  ("org" <> "" /\
   Forall (fun c => py_isspace c = false /\ py_isupper c = false)
     (list_ascii_of_string "org")).
Proof.
  split; [vm_compute; by left|]. split; [by left|].
  apply (tokenize_tokens ["  ORG 100"] ["org"; "100"]); [vm_compute; by left | by left].
Defined.

(** ** [__load_table] *)

Lemma build_table_bad t acc :
  (exists l, In l t /\ length l <> 2%nat) -> build_table t acc = Err ValueError.
Proof.
  revert acc. induction t as [|l t IH]; intros acc (l' & Hin & Hlen); [done|].
  destruct Hin as [<-|Hin].
  - destruct l as [|a [|b [|c r]]]; simpl in *; try done.
  - destruct l as [|a [|b [|c r]]]; simpl; try done. apply IH. by exists l'.
Qed.

Lemma build_table_good t acc :
  Forall (fun l => length l = 2%nat) t -> exists m, build_table t acc = Ok m.
Proof.
  revert acc. induction t as [|l t IH]; intros acc Hall; [by exists acc|].
  inversion Hall as [|? ? Hl Ht]; subst.
  destruct l as [|a [|b [|c r]]]; simpl in Hl; try lia. simpl. by apply IH.
Qed.

Lemma build_table_absent t acc m k :
  build_table t acc = Ok m -> (forall l, In l t -> hd_error l <> Some k) ->
  m !! k = acc !! k.
Proof.
  revert acc. induction t as [|l t IH]; intros acc H Hk; simpl in H.
  - by injection H as <-.
  - destruct l as [|a [|b [|c r]]]; try discriminate.
    rewrite (IH _ H) by (intros l Hl; apply Hk; by right).
    apply lookup_insert_ne. intros ->. apply (Hk [k; b]); [by left|done].
Qed.

Lemma build_table_app pre post acc m :
  build_table (pre ++ post) acc = Ok m ->
  exists acc', build_table pre acc = Ok acc' /\ build_table post acc' = Ok m.
Proof.
  revert acc. induction pre as [|l pre IH]; intros acc H; simpl in *; [by exists acc|].
  destruct l as [|a [|b [|c r]]]; try discriminate. by apply IH.
Qed.

(** Reading a table file either fails or gives the dict of its lines:
    [__load_table] raises [ValueError] as soon as some line of the file
    does not consist of exactly two tokens (a blank line included), and
    succeeds when every line has two. *)
Theorem load_table_two_tokens fs path lines :
  fs path = Some lines ->
  ((exists l, In l (tokenize lines) /\ length l <> 2%nat) ->
     load_table fs path = OErr (OPy ValueError)) /\
  (Forall (fun l => length l = 2%nat) (tokenize lines) ->
     exists m, load_table fs path = OOk m).
Proof.
  intros Hfs. unfold load_table. rewrite Hfs. split.
  - intros Hbad. by rewrite build_table_bad.
  - intros Hgood. destruct (build_table_good _ ∅ Hgood) as [m Hm]. exists m. by rewrite Hm.
Qed.

Lemma load_table_two_tokens_witness :
  ((exists l, In l (tokenize ["lda 000"; ""]) /\ length l <> 2%nat) ->
     load_table (fun _ => Some ["lda 000"; ""]) "mri.txt" = OErr (OPy ValueError)) /\
  (Forall (fun l => length l = 2%nat) (tokenize ["lda 000"; ""]) ->
     exists m, load_table (fun _ => Some ["lda 000"; ""]) "mri.txt" = OOk m).
Proof. by apply (load_table_two_tokens (fun _ => Some ["lda 000"; ""]) "mri.txt"). Defined.

(** In a table read by [__load_table], an opcode is bound to the second
    token of the last line that starts with it, and an opcode that starts
    no line is not a key. *)
Theorem load_table_last_line_wins fs path lines m :
  fs path = Some lines -> load_table fs path = OOk m ->
  (forall pre k b post, tokenize lines = pre ++ [k; b] :: post ->
     (forall l, In l post -> hd_error l <> Some k) -> m !! k = Some b) /\
  (forall k, (forall l, In l (tokenize lines) -> hd_error l <> Some k) -> m !! k = None).
Proof.
  intros Hfs H. unfold load_table in H. rewrite Hfs in H.
  destruct (build_table (tokenize lines) ∅) as [m'|e] eqn:Eb; simpl in H; [|discriminate].
  injection H as <-. split.
  - intros pre k b post Ht Hpost. rewrite Ht in Eb.
    destruct (build_table_app _ _ _ _ Eb) as (acc & _ & Hpost').
    simpl in Hpost'. rewrite (build_table_absent _ _ _ k Hpost' Hpost).
    apply lookup_insert_eq.
  - intros k Hk. by rewrite (build_table_absent _ _ _ k Eb Hk).
Qed.

Lemma load_table_last_line_wins_witness :
  exists m, load_table (fun _ => Some ["HLT 7001"; "hlt 7002"]) "rri.txt" = OOk m /\
  (forall pre k b post, tokenize ["HLT 7001"; "hlt 7002"] = pre ++ [k; b] :: post ->
     (forall l, In l post -> hd_error l <> Some k) -> m !! k = Some b) /\
  (forall k, (forall l, In l (tokenize ["HLT 7001"; "hlt 7002"]) -> hd_error l <> Some k) ->
     m !! k = None).
Proof.
  eexists. split; [vm_compute; reflexivity|].
  apply (load_table_last_line_wins (fun _ => Some ["HLT 7001"; "hlt 7002"]) "rri.txt");
    [reflexivity | vm_compute; reflexivity].
Defined.

(** [__format2bin] is undone by [int(_, 2)]: a successful conversion gives
    a binary string that reads back as the number [num] stood for. *)
Theorem format2bin_reads_back num fmt w s :
  format2bin num fmt w = Ok s ->
  (fmt = "dec" /\ py_int s 2 = py_int num 10) \/
  (fmt = "hex" /\ py_int s 2 = py_int num 16).
Proof.
  unfold format2bin. intros H.
  case_bool_decide as Hd; [|case_bool_decide as Hh].
  - left. split; [done|].
    destruct (py_int num 10) as [v|e]; cbn [rbind] in H; [|discriminate].
    injection H as <-. apply py_int_zfill_format_b.
  - right. split; [done|].
    destruct (py_int num 16) as [v|e]; cbn [rbind] in H; [|discriminate].
    injection H as <-. apply py_int_zfill_format_b.
  - discriminate.
Qed.

Lemma format2bin_reads_back_witness :
  format2bin "-5" "dec" 16 = Ok "-000000000000101" /\
  ((("dec" = "dec") /\ py_int "-000000000000101" 2 = py_int "-5" 10) \/
   (("dec" = "hex") /\ py_int "-000000000000101" 2 = py_int "-5" 16)).
Proof.
  split; [vm_compute; reflexivity|].
  apply (format2bin_reads_back "-5" "dec" 16). vm_compute. reflexivity.
Defined.

(** ** Pass 1 addresses *)

Lemma addr_str_int v : py_int (addr_str v) 2 = Ok v.
Proof. apply py_int_zfill_format_b. Qed.

Lemma addr_str_inj v1 v2 : addr_str v1 = addr_str v2 -> v1 = v2.
Proof.
  intros H. pose proof (addr_str_int v1) as H1. rewrite H, addr_str_int in H1.
  by injection H1.
Qed.

Lemma addr_str_length v : 0 <= v -> String.length (addr_str v) = Nat.max 12 (String.length (py_format_b v)).
Proof.
  intros Hv. unfold addr_str.
  destruct (zfill_unsigned 12 (py_format_b v)) as (n & _ & Hl);
    [by apply format_b_nonneg_head|]. done.
Qed.

(** The address of a line: [format2bin(hex(int(org, 16) + inc)[2::], 'hex', 12)]
    is a binary string of at least 12 digits that reads back as
    [int(org, 16) + inc]; a negative sum makes [int] raise. *)
Theorem fp_ctr_address org v inc :
  py_int org 16 = Ok v ->
  (0 <= v + inc -> exists a, fp_ctr org inc = Ok a /\ py_int a 2 = Ok (v + inc) /\
                            (12 <= String.length a)%nat) /\
  (v + inc < 0 -> fp_ctr org inc = Err ValueError).
Proof.
  intros Ho. split.
  - intros Hnn. exists (addr_str (v + inc)). split; [by apply fp_ctr_ok|].
    split; [apply addr_str_int|]. rewrite addr_str_length by done. lia.
  - intros Hneg. by apply (fp_ctr_neg org v).
Qed.

Lemma fp_ctr_address_witness :
  py_int "ff" 16 = Ok 255 /\
  (fp_ctr "ff" 2 = Ok "000100000001" /\ py_int "000100000001" 2 = Ok 257) /\
  fp_ctr "ff" (-300) = Err ValueError.
Proof.
  pose proof (fp_ctr_address "ff" 255 2 ltac:(vm_compute; reflexivity)) as [H1 _].
  pose proof (fp_ctr_address "ff" 255 (-300) ltac:(vm_compute; reflexivity)) as [_ H2].
  split; [vm_compute; reflexivity|]. split.
  - destruct (H1 ltac:(lia)) as (a & Ha & Hi & _).
    assert (Ea : a = "000100000001").
    { vm_compute in Ha. injection Ha as <-. reflexivity. }
    subst a. split; [exact Ha | exact Hi].
  - apply H2. lia.
Defined.

Lemma pending_addrs_lookup start n k :
  (k < n)%nat -> pending_addrs start n !! k = Some (addr_str (start + Z.of_nat k)).
Proof.
  revert start k. induction n as [|n IH]; intros start k Hk; [lia|].
  destruct k as [|k]; simpl.
  - f_equal. f_equal. lia.
  - rewrite IH by lia. f_equal. f_equal. lia.
Qed.

Lemma pending_addrs_length start n : length (pending_addrs start n) = n.
Proof. revert start. induction n as [|n IH]; intros start; simpl; [done|]. by rewrite IH. Qed.

Lemma pending_addrs_elem start n a :
  a ∈ pending_addrs start n -> exists k, (k < n)%nat /\ a = addr_str (start + Z.of_nat k).
Proof.
  intros Ha. apply list_elem_of_lookup in Ha as [k Hk].
  assert (Hlt : (k < n)%nat).
  { apply lookup_lt_Some in Hk. by rewrite pending_addrs_length in Hk. }
  rewrite pending_addrs_lookup in Hk by done. injection Hk as <-. by exists k.
Qed.

Lemma pending_addrs_nodup start n : NoDup (pending_addrs start n).
Proof.
  revert start. induction n as [|n IH]; intros start; simpl; constructor; [|apply IH].
  intros Hin. apply pending_addrs_elem in Hin as (k & _ & Hk).
  apply addr_str_inj in Hk. lia.
Qed.

Lemma set_pending_keys (d : pydict) addrs :
  NoDup (map fst d ++ addrs) -> map fst (set_pending d addrs) = map fst d ++ addrs.
Proof.
  revert d. induction addrs as [|a addrs IH]; intros d Hnd.
  - by rewrite app_nil_r.
  - assert (Ha : a ∉ map fst d).
    { intros Hin. apply NoDup_app in Hnd as (_ & Hdis & _). apply (Hdis a Hin). constructor. }
    change (set_pending d (a :: addrs)) with (set_pending (dict_set d a None) addrs).
    rewrite IH; rewrite dict_set_keys, bool_decide_false, <- app_assoc by done; done.
Qed.

Lemma fp_loop_end st ls r post :
  fp_loop st (ls ++ ("end" :: r) :: post) = fp_loop st ls.
Proof.
  revert st. induction ls as [|l ls IH]; intros st; simpl; [reflexivity|].
  destruct (fp_step st l) as [[|st']|e]; cbn [rbind]; [reflexivity|apply IH|reflexivity].
Qed.

(** A program segment without [org] and without bare labels: Pass 1 gives
    its [n] lines the [n] distinct consecutive addresses [org], [org + 1],
    ..., in this order, so that the [i]-th line of the body (counted from
    1, as [__second_pass] does) owns the [(i-1)]-th key of [self.__bin];
    the lines after an [end] line, if any, are not looked at. *)
Theorem first_pass_single_segment asm l0 org v pre post :
  asm !! 0%nat = Some l0 -> l0 !! 1%nat = Some org ->
  py_int org 16 = Ok v -> 0 <= v ->
  body_lines asm = pre ++ post -> Forall plain_line pre ->
  (post = [] \/ exists r post', post = ("end" :: r) :: post') ->
  exists st, first_pass asm ∅ [] = Ok st /\
    NoDup (map fst (fp_bin st)) /\ length (fp_bin st) = length pre /\
    forall i, (1 <= i <= length pre)%nat ->
      map fst (fp_bin st) !! (i - 1)%nat = Some (addr_str (v + Z.of_nat i - 1)).
Proof.
  intros H0 H1 Ho Hv Hbody Hplain Hpost.
  destruct (fp_loop_plain pre (fp_init org ∅ []) v Hplain Ho ltac:(simpl; lia))
    as (st & Hloop & _ & _ & Hbin).
  assert (Hkeys : map fst (fp_bin st) = pending_addrs v (length pre)).
  { rewrite Hbin. simpl. rewrite Z.add_0_r, set_pending_keys; [done|].
    apply pending_addrs_nodup. }
  exists st. split.
  - unfold first_pass, py_index. rewrite H0. cbn [rbind]. rewrite H1. cbn [rbind].
    rewrite Hbody. destruct Hpost as [-> | (r & post' & ->)].
    + by rewrite app_nil_r.
    + by rewrite fp_loop_end.
  - rewrite Hkeys. split; [apply pending_addrs_nodup|]. split.
    + rewrite <- (length_map fst (fp_bin st)), Hkeys. apply pending_addrs_length.
    + intros i Hi. rewrite pending_addrs_lookup by lia. do 2 f_equal. lia.
Qed.

Lemma plain_line_intro t0 r :
  t0 <> "end" -> t0 <> "org" -> (islabel t0 = true -> r <> []) -> plain_line (t0 :: r).
Proof. intros. by exists t0, r. Qed.

Lemma first_pass_single_segment_witness :
  exists st, first_pass [["org"; "100"]; ["lda"; "x"]; ["x,"; "hlt"]; ["end"]; ["cla"]] ∅ [] = Ok st /\
    NoDup (map fst (fp_bin st)) /\ length (fp_bin st) = 2%nat /\
    forall i, (1 <= i <= 2)%nat ->
      map fst (fp_bin st) !! (i - 1)%nat = Some (addr_str (256 + Z.of_nat i - 1)).
Proof.
  apply (first_pass_single_segment _ ["org"; "100"] "100" 256
           [["lda"; "x"]; ["x,"; "hlt"]] [["end"]]).
  - reflexivity.
  - reflexivity.
  - vm_compute. reflexivity.
  - lia.
  - vm_compute. reflexivity.
  - repeat constructor; apply plain_line_intro; done.
  - right. by exists [], [].
Defined.

(** ** The image only keeps Pass 1 addresses *)

Lemma store_keys bin i v b :
  store bin i v = Ok b -> map fst b = map fst bin.
Proof.
  intros H. unfold store, py_index in H.
  destruct (map fst bin !! (i - 1)%nat) as [k|] eqn:Ek; cbn [rbind] in H; [|discriminate].
  injection H as <-. rewrite dict_set_keys, bool_decide_true; [done|].
  by apply list_elem_of_lookup_2 in Ek.
Qed.

Lemma sp_step_keys tb sym flag bin i l flag' b :
  sp_step tb sym flag bin i l = Ok (Some (flag', b)) -> map fst b = map fst bin.
Proof.
  intros H. unfold sp_step in H. crush_hyp H.
  all: injection H as <- <-; first [done | eapply store_keys; eassumption].
Qed.

Lemma sp_loop_keys tb sym ls flag bin i b :
  sp_loop tb sym flag bin i ls = Ok b -> map fst b = map fst bin.
Proof.
  revert flag bin i. induction ls as [|l ls IH]; intros flag bin i H; simpl in H.
  - by injection H as <-.
  - crush_hyp H. destruct a as [[f b']|].
    + rewrite (IH _ _ _ H). eapply sp_step_keys; eassumption.
    + by injection H as <-.
Qed.

Lemma filter_keys_sublist (l : pydict) :
  sublist (map fst (List.filter assigned l)) (map fst l).
Proof.
  induction l as [|[k v] l IH]; simpl; [constructor|].
  destruct (assigned (k, v)); simpl; [by apply sublist_skip | by apply sublist_cons].
Qed.

(** Every address of an assembled image is one Pass 1 allocated, and the
    image lists them in the order Pass 1 allocated them: Pass 2 only
    overwrites existing keys, and the final loop only removes keys. *)
Theorem assemble_image_keys asm tb img :
  assemble asm tb = Ok img ->
  exists st, first_pass (rm_comments asm) ∅ [] = Ok st /\
             sublist (map fst img) (map fst (fp_bin st)).
Proof.
  intros H. unfold assemble in H. destruct asm as [|l0 asm]; [discriminate|].
  cbv zeta in H.
  destruct (first_pass (rm_comments (l0 :: asm)) ∅ []) as [st|e] eqn:Efp;
    cbn [rbind] in H; [|discriminate].
  exists st. split; [done|].
  unfold second_pass in H.
  destruct (sp_loop _ _ _ _ _ _) as [b|e] eqn:Esp; cbn [rbind] in H; [|discriminate].
  unfold first_pass in Efp. crush_hyp Efp.
  assert (Hnd : NoDup (map fst (fp_bin st))).
  { eapply fp_loop_nodup; [exact Efp|]. constructor. }
  pose proof (sp_loop_keys _ _ _ _ _ _ _ Esp) as Hk.
  rewrite prune_spec in H by (rewrite Hk; done). injection H as <-.
  rewrite <- Hk. apply filter_keys_sublist.
Qed.

Lemma assemble_image_keys_witness :
  exists img, assemble spec_program_plain spec_tables = Ok img /\
  exists st, first_pass (rm_comments spec_program_plain) ∅ [] = Ok st /\
             sublist (map fst img) (map fst (fp_bin st)).
Proof.
  eexists. split; [vm_compute; reflexivity|].
  apply (assemble_image_keys spec_program_plain spec_tables). vm_compute. reflexivity.
Defined.

(** ** Which lines [assemble] reads *)

Lemma body_lines_snoc (l0 : list string) pre e :
  body_lines (l0 :: pre ++ [e]) = pre.
Proof.
  unfold body_lines. rewrite length_cons, length_app.
  replace (S (length pre + length [e]) - 2)%nat with (length pre) by (simpl; lia).
  change (drop 1 (l0 :: pre ++ [e])) with (pre ++ [e]).
  by rewrite take_app_length.
Qed.

Lemma assemble_shape l0 pre e tb :
  assemble (l0 :: pre ++ [e]) tb =
  (let* org := py_index (cut_comment l0) 1 in
   let* st := fp_loop (fp_init org ∅ []) (rm_comments pre) in
   let* b := sp_loop tb (fp_symtab st) false (fp_bin st) 1 (rm_comments pre) in
   prune b).
Proof.
  change (assemble (l0 :: pre ++ [e]) tb) with
    (let* st := first_pass (rm_comments (l0 :: pre ++ [e])) ∅ [] in
     second_pass (rm_comments (l0 :: pre ++ [e])) tb (fp_symtab st) (fp_bin st)).
  assert (Hr : rm_comments (l0 :: pre ++ [e]) =
               cut_comment l0 :: rm_comments pre ++ [cut_comment e]).
  { unfold rm_comments. by rewrite map_cons, map_app. }
  rewrite Hr. unfold first_pass, second_pass. rewrite body_lines_snoc.
  change (py_index (cut_comment l0 :: rm_comments pre ++ [cut_comment e]) 0)
    with (Ok (A := list string) (cut_comment l0)).
  cbn [rbind].
  destruct (py_index (cut_comment l0) 1) as [org|err]; cbn [rbind]; [|done].
  destruct (fp_loop _ _) as [st|err]; done.
Qed.

Lemma sp_loop_end tb sym flag bin i ls r post :
  sp_loop tb sym flag bin i (ls ++ ("end" :: r) :: post) = sp_loop tb sym flag bin i ls.
Proof.
  revert flag bin i. induction ls as [|l ls IH]; intros flag bin i; simpl; [reflexivity|].
  destruct (sp_step tb sym flag bin i l) as [[[f b]|]|e]; cbn [rbind]; [apply IH|reflexivity|reflexivity].
Qed.

(** The last line of the file is never read, and of the first line only
    its second token (once comments are removed) is: two files that differ
    only there assemble alike, the same image or the same exception. *)
Theorem assemble_ignores_first_and_last l0 l0' pre e e' tb :
  cut_comment l0 !! 1%nat = cut_comment l0' !! 1%nat ->
  assemble (l0 :: pre ++ [e]) tb = assemble (l0' :: pre ++ [e']) tb.
Proof.
  intros H. rewrite !assemble_shape. unfold py_index. by rewrite H.
Qed.

Lemma assemble_ignores_first_and_last_witness :
  cut_comment ["org"; "100"] !! 1%nat = cut_comment ["start"; "100"; "/"; "x"] !! 1%nat /\
  assemble (["org"; "100"] :: [["hlt"]] ++ [["end"]]) spec_tables =
  assemble (["start"; "100"; "/"; "x"] :: [["hlt"]] ++ [["lda"; "y"]]) spec_tables.
Proof.
  split; [reflexivity|].
  apply (assemble_ignores_first_and_last ["org"; "100"] ["start"; "100"; "/"; "x"]).
  reflexivity.
Defined.

(** Nothing from the first line that starts with [end] to the end of the
    file is read (the last line apart, which is never read): the file
    assembles as the one that stops right after that line. *)
Theorem assemble_stops_at_end l0 pre r mid z tb :
  assemble (l0 :: (pre ++ ("end" :: r) :: mid) ++ [z]) tb =
  assemble (l0 :: pre ++ [("end" :: r)]) tb.
Proof.
  rewrite !assemble_shape.
  assert (Hr : rm_comments (pre ++ ("end" :: r) :: mid) =
               rm_comments pre ++ ("end" :: cut_comment r) :: rm_comments mid).
  { unfold rm_comments. rewrite map_app. reflexivity. }
  rewrite Hr. destruct (py_index (cut_comment l0) 1) as [org|err]; cbn [rbind]; [|done].
  rewrite fp_loop_end. destruct (fp_loop _ _) as [st|err]; cbn [rbind]; [|done].
  by rewrite sp_loop_end.
Qed.

(** ** The [Assembler] object *)

Lemma init_attrs fs asmpath mripath rripath ioipath st :
  init fs asmpath mripath rripath ioipath = OOk st ->
  symtab_attr st = ∅ /\ bin_attr st = [] /\
  (if bool_decide (asmpath = "") then asm_attr st = None
   else exists lines, fs asmpath = Some lines /\ asm_attr st = Some (tokenize lines)).
Proof.
  intros H. unfold init in H.
  destruct (bool_decide (asmpath = "")) eqn:Ea.
  - cbn [obind] in H.
    destruct (if bool_decide (mripath = "") then _ else _) as [m|e]; cbn [obind] in H; [|discriminate].
    destruct (if bool_decide (rripath = "") then _ else _) as [r|e]; cbn [obind] in H; [|discriminate].
    destruct (if bool_decide (ioipath = "") then _ else _) as [i|e]; cbn [obind] in H; [|discriminate].
    injection H as <-. done.
  - destruct (read_code _ _ _) as [self1|e] eqn:Er; cbn [obind] in H; [|discriminate].
    unfold read_code in Er. destruct (has_asm_suffix asmpath); [|discriminate].
    destruct (fs asmpath) as [lines|]; [|discriminate]. injection Er as <-.
    destruct (if bool_decide (mripath = "") then _ else _) as [m|e]; cbn [obind] in H; [|discriminate].
    destruct (if bool_decide (rripath = "") then _ else _) as [r|e]; cbn [obind] in H; [|discriminate].
    destruct (if bool_decide (ioipath = "") then _ else _) as [i|e]; cbn [obind] in H; [|discriminate].
    injection H as <-. simpl. split; [done|]. split; [done|]. by exists lines.
Qed.

(** An instance built without [asmpath] can never assemble: [__init__]
    does not assign [self.__asm], so the first line of [assemble] raises
    [AttributeError], whatever [inp] is and whatever files exist. *)
Theorem init_without_asm_unusable fs mripath rripath ioipath st :
  init fs "" mripath rripath ioipath = OOk st ->
  forall fs' inp, assemble_obj fs' st inp = OErr (OAttributeError "_Assembler__asm").
Proof.
  intros H fs' inp. apply init_attrs in H as (_ & _ & Ha).
  rewrite bool_decide_true in Ha by done. unfold assemble_obj. by rewrite Ha.
Qed.

Lemma init_without_asm_unusable_witness :
  exists st, init table_files "" "" "rri.txt" "" = OOk st /\
    assemble_obj table_files st "prog.asm" = OErr (OAttributeError "_Assembler__asm").
Proof.
  eexists. split; [vm_compute; reflexivity|].
  apply (init_without_asm_unusable table_files "" "rri.txt" ""). vm_compute. reflexivity.
Defined.

(** A fresh instance built from a file assembles that file: [assemble()]
    returns what the two passes give on the tokenized lines of the file,
    and raises the same exceptions. *)
Theorem init_then_assemble fs asmpath mripath rripath ioipath st :
  asmpath <> "" -> init fs asmpath mripath rripath ioipath = OOk st ->
  exists lines, fs asmpath = Some lines /\ asm_attr st = Some (tokenize lines) /\
    forall fs', ores_map snd (assemble_obj fs' st "") =
                lift_res (assemble (tokenize lines) (tables_of st)).
Proof.
  intros Hne H. apply init_attrs in H as (Hs & Hb & Ha).
  rewrite bool_decide_false in Ha by done. destruct Ha as (lines & Hf & Ha).
  exists lines. split; [done|]. split; [done|]. intros fs'.
  unfold assemble_obj. rewrite Ha.
  rewrite (bool_decide_true ("" = "")) by done. rewrite andb_true_r.
  destruct (tokenize lines) as [|l0 ls] eqn:Et; [reflexivity|].
  rewrite bool_decide_false by done. cbn [obind]. rewrite Ha, Hs, Hb.
  unfold assemble. cbv zeta.
  destruct (first_pass _ ∅ []) as [fst'|e]; cbn [rbind lift_res obind]; [|reflexivity].
  destruct (second_pass _ _ _ _) as [b|e]; reflexivity.
Qed.

Lemma init_then_assemble_witness :
  exists st, init table_files "prog.asm" "" "rri.txt" "" = OOk st /\
  exists lines, table_files "prog.asm" = Some lines /\ asm_attr st = Some (tokenize lines) /\
    forall fs', ores_map snd (assemble_obj fs' st "") =
                lift_res (assemble (tokenize lines) (tables_of st)).
Proof.
  eexists. split; [vm_compute; reflexivity|].
  apply (init_then_assemble table_files "prog.asm" "" "rri.txt" ""); [done|].
  vm_compute. reflexivity.
Defined.

(** Once a nonempty program is loaded, the argument of [assemble] only
    has its suffix checked: with [.asm] or [.S] it is not read, and the
    call behaves as [assemble()]; otherwise the call raises the suffix
    [AssertionError]. *)
Theorem assemble_obj_loaded_ignores_inp fs self asm0 inp :
  asm_attr self = Some asm0 -> asm0 <> [] -> inp <> "" ->
  (has_asm_suffix inp = true -> assemble_obj fs self inp = assemble_obj fs self "") /\
  (has_asm_suffix inp = false ->
   assemble_obj fs self inp = OErr (OPy (AssertionError suffix_msg))).
Proof.
  intros Ha Hne Hinp. unfold assemble_obj. rewrite Ha.
  rewrite (bool_decide_false (asm0 = [])) by done. cbn [andb].
  rewrite (bool_decide_false (inp = "")) by done.
  rewrite (bool_decide_true ("" = "")) by done.
  split; intros Hs; rewrite Hs; reflexivity.
Qed.

Lemma assemble_obj_loaded_ignores_inp_witness :
  exists st, init table_files "prog.asm" "" "rri.txt" "" = OOk st /\
    assemble_obj (fun _ => None) st "missing.S" = assemble_obj (fun _ => None) st "" /\
    assemble_obj (fun _ => None) st "prog.txt" = OErr (OPy (AssertionError suffix_msg)).
Proof.
  eexists. split; [vm_compute; reflexivity|].
  split.
  - apply (assemble_obj_loaded_ignores_inp _ _ (tokenize ["ORG 100"; "HLT"; "END"]));
      [reflexivity | discriminate | discriminate | reflexivity].
  - apply (assemble_obj_loaded_ignores_inp _ _ (tokenize ["ORG 100"; "HLT"; "END"]));
      [reflexivity | discriminate | discriminate | reflexivity].
Defined.

(** ** [path.split('/')[-1]] *)

Lemma basename_go_spec s cur :
  "/"%char ∉ list_ascii_of_string cur ->
  ("/"%char ∉ list_ascii_of_string (basename_go s cur)) /\
  (exists d, cur +:+ s = d +:+ basename_go s cur /\ (d = "" \/ exists d', d = d' +:+ "/")).
Proof.
  revert cur. induction s as [|c s IH]; intros cur Hcur; simpl.
  - split; [done|]. exists "". split; [exact (string_app_nil cur) | by left].
  - case_bool_decide as Hc.
    + subst c. destruct (IH "" ltac:(simpl; apply not_elem_of_nil)) as (Hn & d & Hd & Hds).
      split; [done|]. exists (cur +:+ String "/" d). split.
      * change ("" +:+ s) with s in Hd. rewrite string_app_assoc.
        change (String "/" d +:+ basename_go s "") with (String "/" (d +:+ basename_go s "")).
        rewrite <- Hd. reflexivity.
      * right. destruct Hds as [-> | (d' & ->)].
        -- exists cur. reflexivity.
        -- exists (cur +:+ String "/" d'). rewrite string_app_assoc. reflexivity.
    + destruct (IH (cur +:+ String c "")) as (Hn & d & Hd & Hds).
      { rewrite chars_append. simpl. intros Hin. apply elem_of_app in Hin as [Hin|Hin]; [done|].
        apply list_elem_of_singleton in Hin. by subst. }
      split; [done|]. exists d. split; [|done].
      rewrite <- Hd, string_app_assoc. reflexivity.
Qed.

(** The file name [read_code] records, [path.split('/')[-1]], has no ['/']
    and ends the path: the path is a (possibly empty) prefix ending in
    ['/'] followed by it. *)
Theorem basename_spec path :
  ("/"%char ∉ list_ascii_of_string (basename path)) /\
  (exists d, path = d +:+ basename path /\ (d = "" \/ exists d', d = d' +:+ "/")).
Proof. apply (basename_go_spec path ""). simpl. apply not_elem_of_nil. Qed.


(** ** The image holds no placeholder *)

(** Whenever [assemble] returns an image, its address keys are pairwise
    distinct and none is bound to the [None] placeholder of Pass 1: the
    final loop of [__second_pass] pops every key whose value was [None]. *)
Theorem assemble_image_no_placeholder asm tb img :
  assemble asm tb = Ok img ->
  NoDup (map fst img) /\ Forall (fun kv => kv.2 <> None) img.
Proof.
  intros H. destruct (assemble_final asm tb img H) as (b & Hnd & ->).
  split; [by apply filter_keys_nodup|].
  apply Forall_forall. intros [k w] Hin.
  apply list_elem_of_In, filter_In in Hin as [_ Ha].
  destruct w; [discriminate|discriminate Ha].
Qed.

Lemma assemble_image_no_placeholder_witness :
  exists img, assemble reloc_program spec_tables = Ok img /\
  NoDup (map fst img) /\ Forall (fun kv : string * option string => kv.2 <> None) img.
Proof.
  eexists. split; [vm_compute; reflexivity|].
  apply (assemble_image_no_placeholder reloc_program spec_tables).
  vm_compute. reflexivity.
Defined.
